(** * wallet-sdk-go: the signed-envelope request/response protocol

    A shallow embedding of [api/transaction.go] and of the POE operations
    (create, update, query, upload) of the wallet client.

    Every operation of the client is a straight-line Go function with early
    returns.  It is embedded as a computation in a small trace-and-error
    monad: the trace records, in program order, the statements that reach a
    collaborator (key custody, signer, transport, file system, decoders) and
    the two reads of the response envelope; an early [return] with a non-nil
    [err] is a failure of the monad.  Collaborators that live outside the
    repository (the REST client, [encoding/json], [os], [io]) are fields of
    an environment record.  The deferred [Close] calls on the response body
    and on the uploaded file release resources after the result is fixed
    and are left out, as are the [log] calls. *)

From Stdlib Require Import ZArith List String Ascii Bool Lia.
Import ListNotations.

Set Warnings "-register-all,-notation-for-abbreviation".

Local Open Scope string_scope.
Local Open Scope list_scope.

Infix "+++" := String.append (right associativity, at level 60).

(** ** Go values shared by all operations *)

(** [http.Header]: a multimap from header names to values. *)
Definition Header : Type := list (string * list string).

(** The dynamic types [encoding/json] stores into an [interface{}]. *)
Inductive GoType : Type :=
| TBool
| TFloat64
| TString
| TSlice
| TMap.

(** An [interface{}] holding a decoded JSON document.  A float is kept as
    its IEEE-754 bit pattern; no operation looks inside it. *)
Inductive Any : Type :=
| ANil
| ABool (b : bool)
| AFloat64 (bits : Z)
| AString (s : string)
| ASlice (l : list Any)
| AMap (m : list (string * Any)).

(** [reflect.TypeOf]: the nil interface has no type. *)
Definition reflect_TypeOf (a : Any) : option GoType :=
  match a with
  | ANil => None
  | ABool _ => Some TBool
  | AFloat64 _ => Some TFloat64
  | AString _ => Some TString
  | ASlice _ => Some TSlice
  | AMap _ => Some TMap
  end.

(** The [%v] verb applied to a [reflect.Type]. *)
Definition GoType_String (t : GoType) : string :=
  match t with
  | TBool => "bool"
  | TFloat64 => "float64"
  | TString => "string"
  | TSlice => "[]interface {}"
  | TMap => "map[string]interface {}"
  end.

Definition fmt_v (t : option GoType) : string :=
  match t with
  | None => "<nil>"
  | Some ty => GoType_String ty
  end.

(** The type assertion [x.(string)] in its two-result form. *)
Definition assert_string (a : Any) : string * bool :=
  match a with
  | AString s => (s, true)
  | _ => (EmptyString, false)
  end.

(** [rtstructs.Response]: the response envelope. *)
Record Response : Type := mkResponse {
  ErrCode : Z;
  ErrMessage : string;
  Payload : Any
}.

(** The part of [*http.Response] the client looks at. *)
Record HttpResponse : Type := mkHttpResponse {
  StatusCode : Z;
  RespBody : string
}.

(** [http.StatusOK]. *)
Definition StatusOK : Z := 200.

(** Errors, by the statement that produces them.  The text of an error
    that comes from a collaborator is carried uninterpreted. *)
Inductive error : Type :=
| Errorf (msg : string)
| CodedError (code : Z) (msg : string)
| MarshalError (detail : string)
| CustodyError (detail : string)
| SigningError (detail : string)
| IOError (detail : string)
| TransportError (detail : string)
| DecodeError (detail : string).

(** A Go result pair [(result, err)]; [None] is the zero value. *)
Definition Outcome (T : Type) : Type := (option T * option error)%type.

(** [strconv.FormatBool]. *)
Definition FormatBool (b : bool) : string :=
  if b then "true" else "false".

(** ** [mime/multipart.Writer] over a [bytes.Buffer] *)

Module multipart.

Definition CRLF : string :=
  String (ascii_of_nat 13) (String (ascii_of_nat 10) EmptyString).

Definition quote : string := String (ascii_of_nat 34) EmptyString.

Definition backslash : ascii := ascii_of_nat 92.

(** [escapeQuotes]: backslash and double quote get a backslash. *)
Fixpoint escapeQuotes (s : string) : string :=
  match s with
  | EmptyString => EmptyString
  | String ch rest =>
      if (Ascii.eqb ch backslash || Ascii.eqb ch (ascii_of_nat 34))%bool
      then String backslash (String ch (escapeQuotes rest))
      else String ch (escapeQuotes rest)
  end.

(** The writer: its boundary, the buffer it writes to, and whether a
    part has been started ([lastpart != nil]). *)
Record Writer : Type := mkWriter {
  boundary : string;
  buf : string;
  lastpart : bool
}.

Definition NewWriter (b : string) : Writer :=
  {| boundary := b; buf := EmptyString; lastpart := false |}.

(** A MIME header line. *)
Definition header_line (kv : string * string) : string :=
  fst kv +++ ": " +++ snd kv +++ CRLF.

(** [CreatePart]: the delimiter (preceded by CRLF after a first part),
    the header lines in key order, an empty line.  Writing to a
    [bytes.Buffer] cannot fail, so the error is always nil. *)
Definition CreatePart (w : Writer) (header : list (string * string))
  : Writer * option error :=
  let delim :=
    if lastpart w then CRLF +++ "--" +++ boundary w +++ CRLF
    else "--" +++ boundary w +++ CRLF in
  ({| boundary := boundary w;
      buf := buf w +++ delim +++ String.concat EmptyString (map header_line header) +++ CRLF;
      lastpart := true |}, None).

Definition CreateFormField (w : Writer) (fieldname : string)
  : Writer * option error :=
  CreatePart w
    [("Content-Disposition",
      "form-data; name=" +++ quote +++ escapeQuotes fieldname +++ quote)].

Definition CreateFormFile (w : Writer) (fieldname filename : string)
  : Writer * option error :=
  CreatePart w
    [("Content-Disposition",
      "form-data; name=" +++ quote +++ escapeQuotes fieldname +++ quote
      +++ "; filename=" +++ quote +++ escapeQuotes filename +++ quote);
     ("Content-Type", "application/octet-stream")].

(** Writing into the current part appends to the buffer. *)
Definition Write (w : Writer) (data : string) : Writer :=
  {| boundary := boundary w; buf := buf w +++ data; lastpart := lastpart w |}.

Definition WriteField (w : Writer) (fieldname value : string)
  : Writer * option error :=
  match CreateFormField w fieldname with
  | (w', Some e) => (w', Some e)
  | (w', None) => (Write w' value, None)
  end.

Definition FormDataContentType (w : Writer) : string :=
  "multipart/form-data; boundary=" +++ boundary w.

(** [Close]: the terminating boundary. *)
Definition Close (w : Writer) : Writer :=
  {| boundary := boundary w;
     buf := buf w +++ CRLF +++ "--" +++ boundary w +++ "--" +++ CRLF;
     lastpart := false |}.

Definition Bytes (w : Writer) : string := buf w.

(** The writer as a successful [WriteField] leaves it. *)
Definition field_written (w : Writer) (fieldname value : string) : Writer :=
  fst (WriteField w fieldname value).

(** The writer as a successful [CreateFormFile] leaves it. *)
Definition file_started (w : Writer) (fieldname filename : string) : Writer :=
  fst (CreateFormFile w fieldname filename).

End multipart.

(** ** The client *)

Section Client.

(** The request and result structures of [sdk-go-common] are opaque to
    the client: it only serializes the former and deserializes the
    latter. *)
Context {IssueBody IssueAssetBody TransferBody TransferAssetBody POEBody : Type}.
Context {SignatureParam SignatureBody : Type}.
Context {WalletResponse TransactionLogs POEPayload UploadResponse : Type}.
Context {File : Type}.

(** [WalletRequest]: the request envelope. *)
Record WalletRequest : Type := mkWalletRequest {
  req_Payload : string;
  req_Signature : option SignatureBody
}.

(** What [SetBody] was given: nothing, an envelope, or raw bytes. *)
Inductive RequestBody : Type :=
| NoBody
| EnvelopeBody (b : WalletRequest)
| BytesBody (b : string).

(** The REST client's request under construction. *)
Record Request : Type := mkRequest {
  Method : string;
  Path : string;
  Headers : Header;
  Params : list (string * string);
  Body : RequestBody
}.

Definition SetHeaders (r : Request) (h : Header) : Request :=
  {| Method := Method r; Path := Path r; Headers := h;
     Params := Params r; Body := Body r |}.

Definition SetHeader (r : Request) (k v : string) : Request :=
  {| Method := Method r; Path := Path r;
     Headers := (k, [v]) :: filter (fun kv => negb (String.eqb (fst kv) k)) (Headers r);
     Params := Params r; Body := Body r |}.

Definition SetParam (r : Request) (k v : string) : Request :=
  {| Method := Method r; Path := Path r; Headers := Headers r;
     Params := Params r ++ [(k, v)]; Body := Body r |}.

Definition SetBody (r : Request) (b : RequestBody) : Request :=
  {| Method := Method r; Path := Path r; Headers := Headers r;
     Params := Params r; Body := b |}.

(** What [DoRequest] hands to [RequireOK]: a transport failure or a
    response. *)
Definition Reply : Type := (string + HttpResponse)%type.

(** [WalletClient]: the transport [c], seen through [DoRequest], and the
    optional key-custody client [s], seen through [queryPrivateKey]. *)
Record WalletClient : Type := mkWalletClient {
  c : Request -> Reply;
  s : option (Header -> option SignatureParam -> string + option SignatureParam)
}.

(** The collaborators and constants the operations use and these two
    source files do not define.  A fallible collaborator answers [inl]
    with the text of its error.  [sign_payload] is what the package's
    [buildSignatureBody] computes from the signature parameters and the
    bytes to sign; [decode_envelope] is the JSON decoding inside
    [restapi.DecodeBody]; [status_text] is the message [restapi.RequireOK]
    gives for a rejected status; [random_boundary] is the boundary
    [multipart.NewWriter] draws. *)
Record Env : Type := mkEnv {
  Marshal_IssueBody : IssueBody -> string + string;
  Marshal_IssueAssetBody : IssueAssetBody -> string + string;
  Marshal_TransferBody : TransferBody -> string + string;
  Marshal_TransferAssetBody : TransferAssetBody -> string + string;
  Marshal_POEBody : POEBody -> string + string;
  Unmarshal_WalletResponse : string -> option WalletResponse * option string;
  Unmarshal_TransactionLogs : string -> option TransactionLogs * option string;
  Unmarshal_POEPayload : string -> option POEPayload * option string;
  Unmarshal_UploadResponse : string -> option UploadResponse * option string;
  sign_payload : option SignatureParam -> string -> string + SignatureBody;
  decode_envelope : string -> string + Response;
  status_text : HttpResponse -> string;
  os_Open : string -> string + File;
  io_ReadAll : File -> string + string;
  random_boundary : string;
  SuccCode : Z;
  OffchainPOEID : string;
  OffchainReadOnly : string;
  OffchainPOEFile : string
}.

Variable E : Env.

(** *** Traces *)

Inductive Event : Type :=
| EvQueryPrivateKey (h : Header) (p : option SignatureParam)
| EvBuildSignatureBody (p : option SignatureParam) (payload : string)
| EvNewRequest (method path : string)
| EvOpen (name : string)
| EvWriterClose
| EvDoRequest (r : Request)
| EvRequireOK
| EvDecodeBody
| EvErrCode
| EvPayload
| EvUnmarshal (data : string).

Definition Trace : Type := list Event.

(** *** The monad *)

Definition M (A : Type) : Type := (Trace * (error + A))%type.

Definition ret {A : Type} (a : A) : M A := ([], inr a).

Definition throw {A : Type} (e : error) : M A := ([], inl e).

Definition emit (ev : Event) : M unit := ([ev], inr tt).

Definition bind {A B : Type} (m : M A) (k : A -> M B) : M B :=
  match m with
  | (t, inl e) => (t, inl e)
  | (t, inr a) => match k a with (t', r) => (t ++ t', r) end
  end.

Notation "x <- m ;; k" := (bind m (fun x => k))
  (at level 61, m at next level, right associativity).
Notation "m ;;; k" := (bind m (fun _ => k))
  (at level 61, right associativity).

(** A collaborator's answer, its error tagged with where it came from. *)
Definition lift {A : Type} (tag : string -> error) (r : string + A) : M A :=
  match r with
  | inl d => throw (tag d)
  | inr a => ret a
  end.

(** The Go function boundary: an early return leaves [result] nil. *)
Definition returns {T : Type} (m : M (Outcome T)) : Trace * Outcome T :=
  match m with
  | (t, inl e) => (t, (None, Some e))
  | (t, inr o) => (t, o)
  end.

(** Calling another operation of the client. *)
Definition call {T : Type} (f : Trace * Outcome T) : M (Outcome T) :=
  match f with (t, o) => (t, inr o) end.

(** *** Collaborators as monadic actions *)

Definition json_Marshal {A : Type} (f : A -> string + string) (v : A) : M string :=
  lift MarshalError (f v).

(** [json.Unmarshal(data, &result)] then [return]: [result] is nil when
    the call is made, so what it holds afterwards is a function of
    [data]. *)
Definition json_Unmarshal {T : Type} (f : string -> option T * option string)
  (data : string) : M (Outcome T) :=
  emit (EvUnmarshal data) ;;;
  match f data with (v, e) => ret (v, option_map DecodeError e) end.

Definition queryPrivateKey
  (q : Header -> option SignatureParam -> string + option SignatureParam)
  (header : Header) (signParams : option SignatureParam)
  : M (option SignatureParam) :=
  emit (EvQueryPrivateKey header signParams) ;;;
  lift CustodyError (q header signParams).

Definition buildSignatureBody (signParams : option SignatureParam)
  (payload : string) : M (option SignatureBody) :=
  emit (EvBuildSignatureBody signParams payload) ;;;
  sign <- lift SigningError (sign_payload E signParams payload) ;;
  ret (Some sign).

Definition NewRequest (method path : string) : M Request :=
  emit (EvNewRequest method path) ;;;
  ret {| Method := method; Path := path; Headers := [];
         Params := []; Body := NoBody |}.

Definition DoRequest (w : WalletClient) (r : Request) : M Reply :=
  emit (EvDoRequest r) ;;;
  ret (c w r).

(** Modelled from the spec: [restapi.RequireOK] belongs to
    [sdk-go-common]; it lets a transport error through and turns any
    status other than the success status into a transport error. *)
Definition RequireOK (reply : Reply) : M HttpResponse :=
  emit EvRequireOK ;;;
  match reply with
  | inl d => throw (TransportError d)
  | inr resp =>
      if (StatusCode resp =? StatusOK)%Z then ret resp
      else throw (TransportError (status_text E resp))
  end.

Definition DecodeBody (resp : HttpResponse) : M Response :=
  emit EvDecodeBody ;;;
  lift DecodeError (decode_envelope E (RespBody resp)).

(** The read of [respBody.ErrCode]. *)
Definition get_ErrCode (respBody : Response) : M Z :=
  emit EvErrCode ;;;
  ret (ErrCode respBody).

(** The read of [respBody.Payload] by the type assertion. *)
Definition Payload_string (respBody : Response) : M (string * bool) :=
  emit EvPayload ;;;
  ret (assert_string (Payload respBody)).

Definition os_open (name : string) : M File :=
  emit (EvOpen name) ;;;
  lift IOError (os_Open E name).

Definition payload_type_invalid (respBody : Response) : error :=
  Errorf ("response payload type invalid: " +++ fmt_v (reflect_TypeOf (Payload respBody))).

(** An error result of the multipart writer, as the callers test it. *)
Definition checked (r : multipart.Writer * option error) : M multipart.Writer :=
  match r with
  | (_, Some err) => throw err
  | (writer, None) => ret writer
  end.

(** [io.Copy(formFile, srcFile)]: the whole file goes into the current
    part, or the read fails. *)
Definition io_Copy (writer : multipart.Writer) (srcFile : File) : M multipart.Writer :=
  data <- lift IOError (io_ReadAll E srcFile) ;;
  ret (multipart.Write writer data).

(** ** [api/transaction.go] *)

Definition IssueCToken (w : WalletClient) (header : Header)
  (body : option IssueBody) (sign : option SignatureBody)
  : Trace * Outcome WalletResponse :=
  returns
    match body with
    | None => throw (Errorf "request payload invalid")
    | Some b =>
        r <- NewRequest "POST" "/v1/transaction/tokens/issue" ;;
        let r := SetHeaders r header in
        reqPayload <- json_Marshal (Marshal_IssueBody E) b ;;
        let reqBody := {| req_Payload := reqPayload; req_Signature := sign |} in
        let r := SetBody r (EnvelopeBody reqBody) in
        reply <- DoRequest w r ;;
        resp <- RequireOK reply ;;
        respBody <- DecodeBody resp ;;
        code <- get_ErrCode respBody ;;
        if negb (code =? SuccCode E)%Z then
          throw (CodedError (ErrCode respBody) (ErrMessage respBody))
        else
          respPayload <- Payload_string respBody ;;
          if negb (snd respPayload) then throw (payload_type_invalid respBody)
          else json_Unmarshal (Unmarshal_WalletResponse E) (fst respPayload)
    end.

Definition IssueCTokenSign (w : WalletClient) (header : Header)
  (body : option IssueBody) (signParams : option SignatureParam)
  : Trace * Outcome WalletResponse :=
  returns
    match body with
    | None => throw (Errorf "request payload invalid")
    | Some b =>
        reqPayload <- json_Marshal (Marshal_IssueBody E) b ;;
        sign <- buildSignatureBody signParams reqPayload ;;
        call (IssueCToken w header body sign)
    end.

Definition IssueAsset (w : WalletClient) (header : Header)
  (body : option IssueAssetBody) (sign : option SignatureBody)
  : Trace * Outcome WalletResponse :=
  returns
    match body with
    | None => throw (Errorf "request payload invalid")
    | Some b =>
        r <- NewRequest "POST" "/v1/transaction/assets/issue" ;;
        let r := SetHeaders r header in
        reqPayload <- json_Marshal (Marshal_IssueAssetBody E) b ;;
        let reqBody := {| req_Payload := reqPayload; req_Signature := sign |} in
        let r := SetBody r (EnvelopeBody reqBody) in
        reply <- DoRequest w r ;;
        resp <- RequireOK reply ;;
        respBody <- DecodeBody resp ;;
        code <- get_ErrCode respBody ;;
        if negb (code =? SuccCode E)%Z then
          throw (CodedError (ErrCode respBody) (ErrMessage respBody))
        else
          respPayload <- Payload_string respBody ;;
          if negb (snd respPayload) then throw (payload_type_invalid respBody)
          else json_Unmarshal (Unmarshal_WalletResponse E) (fst respPayload)
    end.

Definition IssueAssetSign (w : WalletClient) (header : Header)
  (body : option IssueAssetBody) (signParams : option SignatureParam)
  : Trace * Outcome WalletResponse :=
  returns
    match body with
    | None => throw (Errorf "request payload invalid")
    | Some b =>
        reqPayload <- json_Marshal (Marshal_IssueAssetBody E) b ;;
        sign <- buildSignatureBody signParams reqPayload ;;
        call (IssueAsset w header body sign)
    end.

Definition TransferCToken (w : WalletClient) (header : Header)
  (body : option TransferBody) (sign : option SignatureBody)
  : Trace * Outcome WalletResponse :=
  returns
    match body with
    | None => throw (Errorf "request payload invalid")
    | Some b =>
        r <- NewRequest "POST" "/v1/transaction/tokens/transfer" ;;
        let r := SetHeaders r header in
        reqPayload <- json_Marshal (Marshal_TransferBody E) b ;;
        let reqBody := {| req_Payload := reqPayload; req_Signature := sign |} in
        let r := SetBody r (EnvelopeBody reqBody) in
        reply <- DoRequest w r ;;
        resp <- RequireOK reply ;;
        respBody <- DecodeBody resp ;;
        code <- get_ErrCode respBody ;;
        if negb (code =? SuccCode E)%Z then
          throw (CodedError (ErrCode respBody) (ErrMessage respBody))
        else
          respPayload <- Payload_string respBody ;;
          if negb (snd respPayload) then throw (payload_type_invalid respBody)
          else json_Unmarshal (Unmarshal_WalletResponse E) (fst respPayload)
    end.

Definition TransferCTokenSign (w : WalletClient) (header : Header)
  (body : option TransferBody) (signParams : option SignatureParam)
  : Trace * Outcome WalletResponse :=
  returns
    match body with
    | None => throw (Errorf "request payload invalid")
    | Some b =>
        reqPayload <- json_Marshal (Marshal_TransferBody E) b ;;
        sign <- buildSignatureBody signParams reqPayload ;;
        call (TransferCToken w header body sign)
    end.

Definition TransferAsset (w : WalletClient) (header : Header)
  (body : option TransferAssetBody) (sign : option SignatureBody)
  : Trace * Outcome WalletResponse :=
  returns
    match body with
    | None => throw (Errorf "request payload invalid")
    | Some b =>
        r <- NewRequest "POST" "/v1/transaction/assets/transfer" ;;
        let r := SetHeaders r header in
        reqPayload <- json_Marshal (Marshal_TransferAssetBody E) b ;;
        let reqBody := {| req_Payload := reqPayload; req_Signature := sign |} in
        let r := SetBody r (EnvelopeBody reqBody) in
        reply <- DoRequest w r ;;
        resp <- RequireOK reply ;;
        respBody <- DecodeBody resp ;;
        code <- get_ErrCode respBody ;;
        if negb (code =? SuccCode E)%Z then
          throw (CodedError (ErrCode respBody) (ErrMessage respBody))
        else
          respPayload <- Payload_string respBody ;;
          if negb (snd respPayload) then throw (payload_type_invalid respBody)
          else json_Unmarshal (Unmarshal_WalletResponse E) (fst respPayload)
    end.

Definition TransferAssetSign (w : WalletClient) (header : Header)
  (body : option TransferAssetBody) (signParams : option SignatureParam)
  : Trace * Outcome WalletResponse :=
  returns
    match body with
    | None => throw (Errorf "request payload invalid")
    | Some b =>
        reqPayload <- json_Marshal (Marshal_TransferAssetBody E) b ;;
        sign <- buildSignatureBody signParams reqPayload ;;
        call (TransferAsset w header body sign)
    end.

Definition QueryTransactionLogs (w : WalletClient) (header : Header)
  (id : string) (txType : string)
  : Trace * Outcome TransactionLogs :=
  returns
    (if String.eqb id EmptyString then throw (Errorf "request id invalid")
     else
       r <- NewRequest "GET" "/v1/transaction/logs" ;;
       let r := SetHeaders r header in
       let r := SetParam r "id" id in
       let r := SetParam r "type" txType in
       reply <- DoRequest w r ;;
       resp <- RequireOK reply ;;
       respBody <- DecodeBody resp ;;
       code <- get_ErrCode respBody ;;
       if negb (code =? SuccCode E)%Z then
         throw (CodedError (ErrCode respBody) (ErrMessage respBody))
       else
         respPayload <- Payload_string respBody ;;
         if negb (snd respPayload) then throw (payload_type_invalid respBody)
         else json_Unmarshal (Unmarshal_TransactionLogs E) (fst respPayload)).

(** ** The POE operations *)

Definition CreatePOE (w : WalletClient) (header : Header)
  (body : option POEBody) (signParams : option SignatureParam)
  : Trace * Outcome WalletResponse :=
  returns
    match body with
    | None => throw (Errorf "request payload invalid")
    | Some b =>
        signParams <- match s w with
                      | Some q => queryPrivateKey q header signParams
                      | None => ret signParams
                      end ;;
        reqPayload <- json_Marshal (Marshal_POEBody E) b ;;
        sign <- buildSignatureBody signParams reqPayload ;;
        r <- NewRequest "POST" "/v1/poe/create" ;;
        let r := SetHeaders r header in
        let reqBody := {| req_Payload := reqPayload; req_Signature := sign |} in
        let r := SetBody r (EnvelopeBody reqBody) in
        reply <- DoRequest w r ;;
        resp <- RequireOK reply ;;
        respBody <- DecodeBody resp ;;
        code <- get_ErrCode respBody ;;
        if negb (code =? SuccCode E)%Z then
          throw (CodedError (ErrCode respBody) (ErrMessage respBody))
        else
          payload <- Payload_string respBody ;;
          if negb (snd payload) then throw (payload_type_invalid respBody)
          else json_Unmarshal (Unmarshal_WalletResponse E) (fst payload)
    end.

Definition UpdatePOE (w : WalletClient) (header : Header)
  (body : option POEBody) (signParams : option SignatureParam)
  : Trace * Outcome WalletResponse :=
  returns
    match body with
    | None => throw (Errorf "request payload invalid")
    | Some b =>
        signParams <- match s w with
                      | Some q => queryPrivateKey q header signParams
                      | None => ret signParams
                      end ;;
        reqPayload <- json_Marshal (Marshal_POEBody E) b ;;
        sign <- buildSignatureBody signParams reqPayload ;;
        r <- NewRequest "PUT" "/v1/poe/update" ;;
        let r := SetHeaders r header in
        let reqBody := {| req_Payload := reqPayload; req_Signature := sign |} in
        let r := SetBody r (EnvelopeBody reqBody) in
        reply <- DoRequest w r ;;
        resp <- RequireOK reply ;;
        respBody <- DecodeBody resp ;;
        code <- get_ErrCode respBody ;;
        if negb (code =? SuccCode E)%Z then
          throw (CodedError (ErrCode respBody) (ErrMessage respBody))
        else
          payload <- Payload_string respBody ;;
          if negb (snd payload) then throw (payload_type_invalid respBody)
          else json_Unmarshal (Unmarshal_WalletResponse E) (fst payload)
    end.

Definition QueryPOE (w : WalletClient) (header : Header) (id : string)
  : Trace * Outcome POEPayload :=
  returns
    (r <- NewRequest "GET" "/v1/poe" ;;
     let r := SetHeaders r header in
     let r := SetParam r "id" id in
     reply <- DoRequest w r ;;
     resp <- RequireOK reply ;;
     respBody <- DecodeBody resp ;;
     code <- get_ErrCode respBody ;;
     if negb (code =? SuccCode E)%Z then
       throw (CodedError (ErrCode respBody) (ErrMessage respBody))
     else
       respPayload <- Payload_string respBody ;;
       if negb (snd respPayload) then throw (payload_type_invalid respBody)
       else json_Unmarshal (Unmarshal_POEPayload E) (fst respPayload)).

(** The [log] calls of [UploadPOEFile] write to the process log and are
    left out. *)
Definition UploadPOEFile (w : WalletClient) (header : Header)
  (poeID poeFile : string) (readOnly : bool)
  : Trace * Outcome UploadResponse :=
  returns
    (if String.eqb poeID EmptyString then
       throw (Errorf "poe id must be set when uploading poe file")
     else if String.eqb poeFile EmptyString then
       throw (Errorf "poe file must be set when uploading poe file")
     else
       let writer := multipart.NewWriter (random_boundary E) in
       writer <- checked (multipart.WriteField writer (OffchainPOEID E) poeID) ;;
       writer <- checked (multipart.WriteField writer (OffchainReadOnly E)
                            (FormatBool readOnly)) ;;
       formFile <- checked (multipart.CreateFormFile writer (OffchainPOEFile E) poeFile) ;;
       srcFile <- os_open poeFile ;;
       writer <- io_Copy formFile srcFile ;;
       let contentType := multipart.FormDataContentType writer in
       emit EvWriterClose ;;;
       let writer := multipart.Close writer in
       r <- NewRequest "POST" "/v1/poe/upload" ;;
       let r := SetHeaders r header in
       let r := SetHeader r "Content-Type" contentType in
       let r := SetBody r (BytesBody (multipart.Bytes writer)) in
       reply <- DoRequest w r ;;
       resp <- RequireOK reply ;;
       respBody <- DecodeBody resp ;;
       code <- get_ErrCode respBody ;;
       if negb (code =? SuccCode E)%Z then
         throw (CodedError (ErrCode respBody) (ErrMessage respBody))
       else
         respPayload <- Payload_string respBody ;;
         if negb (snd respPayload) then throw (payload_type_invalid respBody)
         else json_Unmarshal (Unmarshal_UploadResponse E) (fst respPayload)).

(** ** All operations under one roof *)

(** A typed result of some operation. *)
Inductive Typed : Type :=
| OfWalletResponse (v : WalletResponse)
| OfTransactionLogs (v : TransactionLogs)
| OfPOEPayload (v : POEPayload)
| OfUploadResponse (v : UploadResponse).

(** An operation together with its arguments other than the header. *)
Inductive Operation : Type :=
| OpIssueCToken (body : option IssueBody) (sign : option SignatureBody)
| OpIssueCTokenSign (body : option IssueBody) (signParams : option SignatureParam)
| OpIssueAsset (body : option IssueAssetBody) (sign : option SignatureBody)
| OpIssueAssetSign (body : option IssueAssetBody) (signParams : option SignatureParam)
| OpTransferCToken (body : option TransferBody) (sign : option SignatureBody)
| OpTransferCTokenSign (body : option TransferBody) (signParams : option SignatureParam)
| OpTransferAsset (body : option TransferAssetBody) (sign : option SignatureBody)
| OpTransferAssetSign (body : option TransferAssetBody) (signParams : option SignatureParam)
| OpQueryTransactionLogs (id : string) (txType : string)
| OpCreatePOE (body : option POEBody) (signParams : option SignatureParam)
| OpUpdatePOE (body : option POEBody) (signParams : option SignatureParam)
| OpQueryPOE (id : string)
| OpUploadPOEFile (poeID poeFile : string) (readOnly : bool).

Definition as_typed {T : Type} (inj : T -> Typed) (r : Trace * Outcome T)
  : Trace * Outcome Typed :=
  match r with (t, (v, e)) => (t, (option_map inj v, e)) end.

Definition invoke (w : WalletClient) (header : Header) (op : Operation)
  : Trace * Outcome Typed :=
  match op with
  | OpIssueCToken body sign =>
      as_typed OfWalletResponse (IssueCToken w header body sign)
  | OpIssueCTokenSign body signParams =>
      as_typed OfWalletResponse (IssueCTokenSign w header body signParams)
  | OpIssueAsset body sign =>
      as_typed OfWalletResponse (IssueAsset w header body sign)
  | OpIssueAssetSign body signParams =>
      as_typed OfWalletResponse (IssueAssetSign w header body signParams)
  | OpTransferCToken body sign =>
      as_typed OfWalletResponse (TransferCToken w header body sign)
  | OpTransferCTokenSign body signParams =>
      as_typed OfWalletResponse (TransferCTokenSign w header body signParams)
  | OpTransferAsset body sign =>
      as_typed OfWalletResponse (TransferAsset w header body sign)
  | OpTransferAssetSign body signParams =>
      as_typed OfWalletResponse (TransferAssetSign w header body signParams)
  | OpQueryTransactionLogs id txType =>
      as_typed OfTransactionLogs (QueryTransactionLogs w header id txType)
  | OpCreatePOE body signParams =>
      as_typed OfWalletResponse (CreatePOE w header body signParams)
  | OpUpdatePOE body signParams =>
      as_typed OfWalletResponse (UpdatePOE w header body signParams)
  | OpQueryPOE id =>
      as_typed OfPOEPayload (QueryPOE w header id)
  | OpUploadPOEFile poeID poeFile readOnly =>
      as_typed OfUploadResponse (UploadPOEFile w header poeID poeFile readOnly)
  end.

Definition trace_of (r : Trace * Outcome Typed) : Trace := fst r.
Definition result_of (r : Trace * Outcome Typed) : option Typed := fst (snd r).
Definition err_of (r : Trace * Outcome Typed) : option error := snd (snd r).

(** The target of the second decoding stage, by operation. *)
Definition retyped {T : Type} (inj : T -> Typed)
  (f : string -> option T * option string) (data : string)
  : option Typed * option string :=
  match f data with (v, e) => (option_map inj v, e) end.

Definition target (op : Operation) : string -> option Typed * option string :=
  match op with
  | OpQueryTransactionLogs _ _ => retyped OfTransactionLogs (Unmarshal_TransactionLogs E)
  | OpQueryPOE _ => retyped OfPOEPayload (Unmarshal_POEPayload E)
  | OpUploadPOEFile _ _ _ => retyped OfUploadResponse (Unmarshal_UploadResponse E)
  | _ => retyped OfWalletResponse (Unmarshal_WalletResponse E)
  end.

(** *** Reading a trace *)

(** The requests handed to the transport. *)
Fixpoint dispatched (t : Trace) : list Request :=
  match t with
  | [] => []
  | EvDoRequest r :: t' => r :: dispatched t'
  | _ :: t' => dispatched t'
  end.

(** The request objects built, by method and path. *)
Fixpoint built (t : Trace) : list (string * string) :=
  match t with
  | [] => []
  | EvNewRequest m p :: t' => (m, p) :: built t'
  | _ :: t' => built t'
  end.

(** The byte sequences handed to the signer. *)
Fixpoint signed (t : Trace) : list string :=
  match t with
  | [] => []
  | EvBuildSignatureBody _ payload :: t' => payload :: signed t'
  | _ :: t' => signed t'
  end.

(** What happens after the first dispatch. *)
Fixpoint after_dispatch (t : Trace) : Trace :=
  match t with
  | [] => []
  | EvDoRequest _ :: t' => t'
  | _ :: t' => after_dispatch t'
  end.

(** What happens up to the first dispatch. *)
Fixpoint before_dispatch (t : Trace) : Trace :=
  match t with
  | [] => []
  | EvDoRequest _ :: _ => []
  | ev :: t' => ev :: before_dispatch t'
  end.

(** The events of the decoding stage. *)
Definition decoding (ev : Event) : bool :=
  match ev with
  | EvRequireOK | EvDecodeBody | EvErrCode | EvPayload | EvUnmarshal _ => true
  | _ => false
  end.

(** The payload string a request carries in its envelope. *)
Definition transmitted (r : Request) : option string :=
  match Body r with
  | EnvelopeBody b => Some (req_Payload b)
  | _ => None
  end.

(** The bytes a request carries as its raw body. *)
Definition raw_body (r : Request) : option string :=
  match Body r with
  | BytesBody b => Some b
  | _ => None
  end.

(** ** The response envelope decoder, as the specification words it *)

(** The five steps, in order; each rule but the last is the failure of
    one step, reached when all steps before it succeeded, and lists the
    steps that ran. *)
Inductive Decoded (U : string -> option Typed * option string)
  : Reply -> Trace -> Outcome Typed -> Prop :=
| transport_failed (d : string) :
    Decoded U (inl d) [EvRequireOK] (None, Some (TransportError d))
| status_rejected (resp : HttpResponse) :
    StatusCode resp <> StatusOK ->
    Decoded U (inr resp) [EvRequireOK]
      (None, Some (TransportError (status_text E resp)))
| envelope_malformed (resp : HttpResponse) (d : string) :
    StatusCode resp = StatusOK ->
    decode_envelope E (RespBody resp) = inl d ->
    Decoded U (inr resp) [EvRequireOK; EvDecodeBody]
      (None, Some (DecodeError d))
| remote_rejected (resp : HttpResponse) (env : Response) :
    StatusCode resp = StatusOK ->
    decode_envelope E (RespBody resp) = inr env ->
    ErrCode env <> SuccCode E ->
    Decoded U (inr resp) [EvRequireOK; EvDecodeBody; EvErrCode]
      (None, Some (CodedError (ErrCode env) (ErrMessage env)))
| payload_not_string (resp : HttpResponse) (env : Response) :
    StatusCode resp = StatusOK ->
    decode_envelope E (RespBody resp) = inr env ->
    ErrCode env = SuccCode E ->
    reflect_TypeOf (Payload env) <> Some TString ->
    Decoded U (inr resp) [EvRequireOK; EvDecodeBody; EvErrCode; EvPayload]
      (None, Some (Errorf ("response payload type invalid: "
                           +++ fmt_v (reflect_TypeOf (Payload env)))))
| payload_malformed (resp : HttpResponse) (env : Response) (data d : string) :
    StatusCode resp = StatusOK ->
    decode_envelope E (RespBody resp) = inr env ->
    ErrCode env = SuccCode E ->
    Payload env = AString data ->
    snd (U data) = Some d ->
    Decoded U (inr resp)
      [EvRequireOK; EvDecodeBody; EvErrCode; EvPayload; EvUnmarshal data]
      (fst (U data), Some (DecodeError d))
| decoded (resp : HttpResponse) (env : Response) (data : string) :
    StatusCode resp = StatusOK ->
    decode_envelope E (RespBody resp) = inr env ->
    ErrCode env = SuccCode E ->
    Payload env = AString data ->
    snd (U data) = None ->
    Decoded U (inr resp)
      [EvRequireOK; EvDecodeBody; EvErrCode; EvPayload; EvUnmarshal data]
      (fst (U data), None).

(** The same decoder as a function of the transport's answer. *)
Definition decode (U : string -> option Typed * option string) (reply : Reply)
  : Trace * Outcome Typed :=
  match reply with
  | inl d => ([EvRequireOK], (None, Some (TransportError d)))
  | inr resp =>
      if negb (StatusCode resp =? StatusOK)%Z then
        ([EvRequireOK], (None, Some (TransportError (status_text E resp))))
      else
        match decode_envelope E (RespBody resp) with
        | inl d => ([EvRequireOK; EvDecodeBody], (None, Some (DecodeError d)))
        | inr env =>
            if negb (ErrCode env =? SuccCode E)%Z then
              ([EvRequireOK; EvDecodeBody; EvErrCode],
               (None, Some (CodedError (ErrCode env) (ErrMessage env))))
            else
              match Payload env with
              | AString data =>
                  match U data with
                  | (v, e) =>
                      ([EvRequireOK; EvDecodeBody; EvErrCode; EvPayload; EvUnmarshal data],
                       (v, option_map DecodeError e))
                  end
              | _ =>
                  ([EvRequireOK; EvDecodeBody; EvErrCode; EvPayload],
                   (None, Some (payload_type_invalid env)))
              end
        end
  end.

(** ** The multipart body, as the specification words it *)

(** A part of the form: a metadata field or the file. *)
Inductive FormPart : Type :=
| Field (name value : string)
| FilePart (name filename content : string).

Definition part_headers (p : FormPart) : string :=
  match p with
  | Field name _ =>
      "Content-Disposition: form-data; name=" +++ multipart.quote
      +++ multipart.escapeQuotes name +++ multipart.quote +++ multipart.CRLF
  | FilePart name filename _ =>
      "Content-Disposition: form-data; name=" +++ multipart.quote
      +++ multipart.escapeQuotes name +++ multipart.quote
      +++ "; filename=" +++ multipart.quote
      +++ multipart.escapeQuotes filename +++ multipart.quote +++ multipart.CRLF
      +++ "Content-Type: application/octet-stream" +++ multipart.CRLF
  end.

Definition part_content (p : FormPart) : string :=
  match p with
  | Field _ value => value
  | FilePart _ _ content => content
  end.

(** The terminating boundary line. *)
Definition terminator (b : string) : string :=
  multipart.CRLF +++ "--" +++ b +++ "--" +++ multipart.CRLF.

(** The parts after the first: each opens with CRLF and the delimiter. *)
Fixpoint form_rest (b : string) (ps : list FormPart) : string :=
  match ps with
  | [] => terminator b
  | p :: ps' =>
      multipart.CRLF +++ "--" +++ b +++ multipart.CRLF
      +++ part_headers p +++ multipart.CRLF +++ part_content p
      +++ form_rest b ps'
  end.

(** A finalized form with boundary [b] and the parts [ps], in order. *)
Definition form (b : string) (ps : list FormPart) : string :=
  match ps with
  | [] => terminator b
  | p :: ps' =>
      "--" +++ b +++ multipart.CRLF
      +++ part_headers p +++ multipart.CRLF +++ part_content p
      +++ form_rest b ps'
  end.

(** ** Failures of the signing stage *)

(** A run whose trace shows a key-custody lookup or a signer call that
    failed, with the error that call produced. *)
Inductive SigningFailure (w : WalletClient) (t : Trace) : error -> Prop :=
| custody_failed (h : Header) (p : option SignatureParam)
    (q : Header -> option SignatureParam -> string + option SignatureParam)
    (d : string) :
    In (EvQueryPrivateKey h p) t ->
    s w = Some q ->
    q h p = inl d ->
    SigningFailure w t (CustodyError d)
| signer_failed (p : option SignatureParam) (payload d : string) :
    In (EvBuildSignatureBody p payload) t ->
    sign_payload E p payload = inl d ->
    SigningFailure w t (SigningError d).

(** [needle] ends [hay]. *)
Definition ends_with (hay needle : string) : Prop :=
  exists front : string, hay = front +++ needle.

(** ** Reading an operation *)

(** An operation that takes a request body, called with a nil one. *)
Definition payload_missing (op : Operation) : bool :=
  match op with
  | OpIssueCToken None _ | OpIssueCTokenSign None _
  | OpIssueAsset None _ | OpIssueAssetSign None _
  | OpTransferCToken None _ | OpTransferCTokenSign None _
  | OpTransferAsset None _ | OpTransferAssetSign None _
  | OpCreatePOE None _ | OpUpdatePOE None _ => true
  | _ => false
  end.

(** What [json.Marshal] answers for the body of the operation, when it
    has one. *)
Definition serialized (op : Operation) : option (string + string) :=
  match op with
  | OpIssueCToken (Some b) _ | OpIssueCTokenSign (Some b) _ =>
      Some (Marshal_IssueBody E b)
  | OpIssueAsset (Some b) _ | OpIssueAssetSign (Some b) _ =>
      Some (Marshal_IssueAssetBody E b)
  | OpTransferCToken (Some b) _ | OpTransferCTokenSign (Some b) _ =>
      Some (Marshal_TransferBody E b)
  | OpTransferAsset (Some b) _ | OpTransferAssetSign (Some b) _ =>
      Some (Marshal_TransferAssetBody E b)
  | OpCreatePOE (Some b) _ | OpUpdatePOE (Some b) _ =>
      Some (Marshal_POEBody E b)
  | _ => None
  end.

(** The signature the caller hands to an operation that does not sign. *)
Definition caller_signature (op : Operation) : option (option SignatureBody) :=
  match op with
  | OpIssueCToken _ sign | OpIssueAsset _ sign
  | OpTransferCToken _ sign | OpTransferAsset _ sign => Some sign
  | _ => None
  end.

(** The operation a [...Sign] operation hands over to, given the
    signature it has made. *)
Definition presigned (op : Operation) (sign : option SignatureBody)
  : option Operation :=
  match op with
  | OpIssueCTokenSign body _ => Some (OpIssueCToken body sign)
  | OpIssueAssetSign body _ => Some (OpIssueAsset body sign)
  | OpTransferCTokenSign body _ => Some (OpTransferCToken body sign)
  | OpTransferAssetSign body _ => Some (OpTransferAsset body sign)
  | _ => None
  end.

(** The operations that consult the key custody when there is one. *)
Definition consults_custody (op : Operation) : bool :=
  match op with
  | OpCreatePOE _ _ | OpUpdatePOE _ _ => true
  | _ => false
  end.

(** The signature parameters the caller hands to an operation that
    signs. *)
Definition caller_params (op : Operation) : option (option SignatureParam) :=
  match op with
  | OpIssueCTokenSign _ p | OpIssueAssetSign _ p
  | OpTransferCTokenSign _ p | OpTransferAssetSign _ p
  | OpCreatePOE _ p | OpUpdatePOE _ p => Some p
  | _ => None
  end.

(** The signature parameters [CreatePOE] and [UpdatePOE] sign with: the
    answer of the key custody when the client has one, the caller's
    otherwise. *)
Definition resolve (w : WalletClient) (header : Header)
  (signParams : option SignatureParam) : string + option SignatureParam :=
  match s w with
  | Some q => q header signParams
  | None => inr signParams
  end.

(** Method and path of the request each operation builds. *)
Definition endpoint (op : Operation) : string * string :=
  match op with
  | OpIssueCToken _ _ | OpIssueCTokenSign _ _ =>
      ("POST", "/v1/transaction/tokens/issue")
  | OpIssueAsset _ _ | OpIssueAssetSign _ _ =>
      ("POST", "/v1/transaction/assets/issue")
  | OpTransferCToken _ _ | OpTransferCTokenSign _ _ =>
      ("POST", "/v1/transaction/tokens/transfer")
  | OpTransferAsset _ _ | OpTransferAssetSign _ _ =>
      ("POST", "/v1/transaction/assets/transfer")
  | OpQueryTransactionLogs _ _ => ("GET", "/v1/transaction/logs")
  | OpCreatePOE _ _ => ("POST", "/v1/poe/create")
  | OpUpdatePOE _ _ => ("PUT", "/v1/poe/update")
  | OpQueryPOE _ => ("GET", "/v1/poe")
  | OpUploadPOEFile _ _ _ => ("POST", "/v1/poe/upload")
  end.

(** The error [RequireOK] finds in the transport's answer, if any. *)
Definition refusal (reply : Reply) : option string :=
  match reply with
  | inl d => Some d
  | inr resp =>
      if (StatusCode resp =? StatusOK)%Z then None
      else Some (status_text E resp)
  end.

End Client.

(** ** A concrete world

    Every opaque structure is a string; serialization is the identity.
    The toy gateway understands four response bodies. *)

Module Sample.

Definition envelope (body : string) : string + Response :=
  if String.eqb body "good" then
    inr {| ErrCode := 0; ErrMessage := EmptyString; Payload := AString "result" |}
  else if String.eqb body "rejected" then
    inr {| ErrCode := 1001; ErrMessage := "insufficient balance";
           Payload := AString "ignored" |}
  else if String.eqb body "number" then
    inr {| ErrCode := 0; ErrMessage := EmptyString; Payload := AFloat64 0 |}
  else if String.eqb body "null" then
    inr {| ErrCode := 0; ErrMessage := EmptyString; Payload := ANil |}
  else inl "unexpected end of JSON input".

Definition signer (p : option string) (payload : string) : string + string :=
  match p with
  | None => inl "signature params invalid"
  | Some key => inr (key +++ ":" +++ payload)
  end.

Definition files (name : string) : string + string :=
  if String.eqb name "poe.txt" then inr "file contents"
  else inl "open: no such file or directory".

Definition world : @Env string string string string string string string
                        string string string string string :=
  {| Marshal_IssueBody := inr;
     Marshal_IssueAssetBody := inr;
     Marshal_TransferBody := inr;
     Marshal_TransferAssetBody := inr;
     Marshal_POEBody := inr;
     Unmarshal_WalletResponse := fun data => (Some data, None);
     Unmarshal_TransactionLogs := fun data => (Some data, None);
     Unmarshal_POEPayload := fun data => (Some data, None);
     Unmarshal_UploadResponse := fun data => (Some data, None);
     sign_payload := signer;
     decode_envelope := envelope;
     status_text := fun _ => "Unexpected response code";
     os_Open := files;
     io_ReadAll := inr;
     random_boundary := "b0";
     SuccCode := 0;
     OffchainPOEID := "poe_id";
     OffchainReadOnly := "read_only";
     OffchainPOEFile := "poe_file" |}.

(** A client whose gateway answers every request with status 200 and the
    given body, without key custody. *)
Definition client (body : string) : @WalletClient string string :=
  {| c := fun _ => inr {| StatusCode := 200; RespBody := body |};
     s := None |}.

(** A client whose key custody knows no key. *)
Definition orphan (body : string) : @WalletClient string string :=
  {| c := fun _ => inr {| StatusCode := 200; RespBody := body |};
     s := Some (fun _ _ => inl "key not found") |}.

Definition sync : Header := [("Bc-Invoke-Mode", ["sync"])].

(** The request [IssueCTokenSign] sends for the body [body] signed with
    the key [key], under the headers [h]. *)
Definition issue_request (h : Header) : @Request string :=
  {| Method := "POST"; Path := "/v1/transaction/tokens/issue";
     Headers := h; Params := [];
     Body := EnvelopeBody {| req_Payload := "body";
                             req_Signature := Some "key:body" |} |}.

Definition issue : @Operation string string string string string string string :=
  OpIssueCTokenSign (Some "body") (Some "key").

(** The request [QueryPOE] sends for the identifier [poe-1]. *)
Definition query_request (h : Header) : @Request string :=
  {| Method := "GET"; Path := "/v1/poe"; Headers := h;
     Params := [("id", "poe-1")]; Body := NoBody |}.

Definition query : @Operation string string string string string string string :=
  OpQueryPOE "poe-1".

Definition upload : @Operation string string string string string string string :=
  OpUploadPOEFile "poe-1" "poe.txt" true.

(** The body [upload] sends. *)
Definition upload_bytes : string :=
  form "b0" [Field "poe_id" "poe-1"; Field "read_only" "true";
             FilePart "poe_file" "poe.txt" "file contents"].

Definition upload_request (h : Header) : @Request string :=
  {| Method := "POST"; Path := "/v1/poe/upload";
     Headers := ("Content-Type", ["multipart/form-data; boundary=b0"]) :: h;
     Params := [];
     Body := BytesBody upload_bytes |}.

Definition answer (body : string) : HttpResponse :=
  {| StatusCode := 200; RespBody := body |}.

(** A world in which nothing serializes and no file can be read. *)
Definition faulty : @Env string string string string string string string
                         string string string string string :=
  {| Marshal_IssueBody := fun _ => inl "json: unsupported value";
     Marshal_IssueAssetBody := fun _ => inl "json: unsupported value";
     Marshal_TransferBody := fun _ => inl "json: unsupported value";
     Marshal_TransferAssetBody := fun _ => inl "json: unsupported value";
     Marshal_POEBody := fun _ => inl "json: unsupported value";
     Unmarshal_WalletResponse := fun data => (Some data, None);
     Unmarshal_TransactionLogs := fun data => (Some data, None);
     Unmarshal_POEPayload := fun data => (Some data, None);
     Unmarshal_UploadResponse := fun data => (Some data, None);
     sign_payload := signer;
     decode_envelope := envelope;
     status_text := fun _ => "Unexpected response code";
     os_Open := files;
     io_ReadAll := fun _ => inl "read: input/output error";
     random_boundary := "b0";
     SuccCode := 0;
     OffchainPOEID := "poe_id";
     OffchainReadOnly := "read_only";
     OffchainPOEFile := "poe_file" |}.

(** A client whose gateway is down: status 503 on every request. *)
Definition down : @WalletClient string string :=
  {| c := fun _ => inr {| StatusCode := 503; RespBody := "good" |};
     s := None |}.

(** A client whose key custody holds one key for everybody. *)
Definition custodian (body : string) : @WalletClient string string :=
  {| c := fun _ => inr {| StatusCode := 200; RespBody := body |};
     s := Some (fun _ _ => inr (Some "vault")) |}.

End Sample.

(** ** Properties *)

Section Properties.

Context {IssueBody IssueAssetBody TransferBody TransferAssetBody POEBody : Type}.
Context {SignatureParam SignatureBody : Type}.
Context {WalletResponse TransactionLogs POEPayload UploadResponse : Type}.
Context {File : Type}.

Variable E : @Env IssueBody IssueAssetBody TransferBody TransferAssetBody POEBody
                  SignatureParam SignatureBody
                  WalletResponse TransactionLogs POEPayload UploadResponse File.

Notation Ev := (@Event SignatureParam SignatureBody).
Notation Tr := (@Trace SignatureParam SignatureBody).
Notation Req := (@Request SignatureBody).
Notation Client := (@WalletClient SignatureParam SignatureBody).
Notation Op := (@Operation IssueBody IssueAssetBody TransferBody TransferAssetBody
                           POEBody SignatureParam SignatureBody).

(** *** Reading traces *)

Lemma dispatched_app (t u : Tr) :
  dispatched (t ++ u) = dispatched t ++ dispatched u.
Proof.
  induction t as [|ev t IH]; simpl; [reflexivity|].
  destruct ev; simpl; rewrite ?IH; reflexivity.
Qed.

Lemma In_dispatched (t : Tr) (r : Req) :
  In r (dispatched t) <-> In (EvDoRequest r) t.
Proof.
  induction t as [|ev t IH]; simpl; [tauto|].
  destruct ev; simpl; rewrite IH;
    intuition (try discriminate; try congruence).
Qed.

Lemma In_signed (t : Tr) (payload : string) :
  In payload (signed t) <-> exists p, In (EvBuildSignatureBody p payload) t.
Proof.
  induction t as [|ev t IH]; simpl.
  - split; [tauto | intros [_ []]].
  - destruct ev; simpl; rewrite IH; split.
    all: try (intros [q H]; exists q; auto; fail).
    all: try (intros [q [H|H]]; [discriminate | exists q; exact H]).
    + intros [H|[q H]]; [subst; eexists; left; reflexivity | exists q; auto].
    + intros [q [H|H]]; [inversion H; auto | right; exists q; exact H].
Qed.

(** An event is before the first dispatch, a dispatch, or after it. *)
Lemma In_trace_split (t : Tr) (ev : Ev) :
  In ev t ->
  In ev (before_dispatch t) \/ (exists r, ev = EvDoRequest r) \/ In ev (after_dispatch t).
Proof.
  induction t as [|e t IH]; simpl; [tauto|].
  intros [H|H].
  - subst e. destruct ev; simpl; auto.
    right; left; eexists; reflexivity.
  - destruct e; simpl; try (destruct (IH H) as [?|[?|?]]; auto).
Qed.

Lemma quiet_In (t : Tr) (ev : Ev) :
  forallb (fun e => negb (decoding e)) t = true ->
  In ev t -> decoding ev = false.
Proof.
  rewrite forallb_forall. intros H Hin.
  apply negb_true_iff. apply (H ev Hin).
Qed.

(** *** The decoder *)

Lemma decode_Decoded (U : string -> option Typed * option string) (reply : Reply) :
  Decoded E U reply (fst (decode E U reply)) (snd (decode E U reply)).
Proof.
  unfold decode. destruct reply as [d|resp]; simpl.
  { constructor. }
  destruct (Z.eqb_spec (StatusCode resp) StatusOK) as [Hs|Hs]; simpl.
  2: { constructor; exact Hs. }
  destruct (decode_envelope E (RespBody resp)) as [d|env] eqn:He; simpl.
  { constructor; assumption. }
  destruct (Z.eqb_spec (ErrCode env) (SuccCode E)) as [Hc|Hc]; simpl.
  2: { constructor; assumption. }
  destruct (Payload env) as [|flag|bits|data|l|m] eqn:Hp; simpl.
  4: { destruct (U data) as [v [d|]] eqn:Hu; simpl.
       - replace v with (fst (U data)) by (rewrite Hu; reflexivity).
         eapply payload_malformed; eauto. rewrite Hu; reflexivity.
       - replace v with (fst (U data)) by (rewrite Hu; reflexivity).
         eapply decoded; eauto. rewrite Hu; reflexivity. }
  all: unfold payload_type_invalid; apply payload_not_string; auto;
    rewrite Hp; simpl; discriminate.
Qed.

Lemma decode_rejected (U : string -> option Typed * option string)
  (resp : HttpResponse) (env : Response) :
  StatusCode resp = StatusOK ->
  decode_envelope E (RespBody resp) = inr env ->
  ErrCode env <> SuccCode E ->
  decode E U (inr resp) =
    ([EvRequireOK; EvDecodeBody; EvErrCode],
     (None, Some (CodedError (ErrCode env) (ErrMessage env)))).
Proof.
  intros Hs He Hc. unfold decode.
  apply Z.eqb_eq in Hs. apply Z.eqb_neq in Hc.
  rewrite Hs, He, Hc. reflexivity.
Qed.

Lemma decode_not_string (U : string -> option Typed * option string)
  (resp : HttpResponse) (env : Response) :
  StatusCode resp = StatusOK ->
  decode_envelope E (RespBody resp) = inr env ->
  ErrCode env = SuccCode E ->
  reflect_TypeOf (Payload env) <> Some TString ->
  decode E U (inr resp) =
    ([EvRequireOK; EvDecodeBody; EvErrCode; EvPayload],
     (None, Some (payload_type_invalid env))).
Proof.
  intros Hs He Hc Hp. unfold decode.
  apply Z.eqb_eq in Hs. apply Z.eqb_eq in Hc.
  rewrite Hs, He, Hc. simpl.
  destruct (Payload env); try reflexivity.
  exfalso; apply Hp; reflexivity.
Qed.

(** The decoder never dispatches, signs or builds. *)
Lemma decode_quiet (U : string -> option Typed * option string) (reply : Reply) :
  dispatched (fst (decode E U reply)) = []
  /\ signed (fst (decode E U reply)) = []
  /\ built (fst (decode E U reply)) = [].
Proof.
  unfold decode.
  destruct reply as [d|resp]; simpl; auto.
  destruct (negb (StatusCode resp =? StatusOK)%Z); simpl; auto.
  destruct (decode_envelope E (RespBody resp)) as [d|env]; simpl; auto.
  destruct (negb (ErrCode env =? SuccCode E)%Z); simpl; auto.
  destruct (Payload env) as [|flag|bits|data|l|m]; simpl; auto.
  destruct (U data); simpl; auto.
Qed.

(** *** Case analysis of the operations *)

Lemma checked_WriteField (wr : multipart.Writer) (n v : string) :
  @checked SignatureParam SignatureBody (multipart.WriteField wr n v)
  = ret (multipart.field_written wr n v).
Proof. reflexivity. Qed.

Lemma checked_CreateFormFile (wr : multipart.Writer) (n v : string) :
  @checked SignatureParam SignatureBody (multipart.CreateFormFile wr n v)
  = ret (multipart.file_started wr n v).
Proof. reflexivity. Qed.

(** Unfold an operation down to the answers of its collaborators. *)
Ltac run :=
  cbv beta iota zeta delta
    [invoke as_typed IssueCToken IssueCTokenSign IssueAsset IssueAssetSign
     TransferCToken TransferCTokenSign TransferAsset TransferAssetSign
     QueryTransactionLogs CreatePOE UpdatePOE QueryPOE UploadPOEFile
     returns call bind ret throw emit lift json_Marshal json_Unmarshal
     queryPrivateKey buildSignatureBody NewRequest DoRequest RequireOK
     DecodeBody get_ErrCode Payload_string os_open io_Copy
     target retyped trace_of result_of err_of
     assert_string negb fst snd app option_map].

(** Split on the next answer that decides how the operation goes on. *)
Ltac branch :=
  match goal with
  | |- context [match ?x with _ => _ end] =>
      lazymatch x with
      | context [match _ with _ => _ end] => fail
      | _ => destruct x eqn:?
      end
  end.

Ltac step :=
  match goal with
  | |- context [checked (multipart.WriteField _ _ _)] =>
      rewrite checked_WriteField
  | |- context [checked (multipart.CreateFormFile _ _ _)] =>
      rewrite checked_CreateFormFile
  | _ => branch
  end.

Ltac cases := run; repeat (step; run; try discriminate).

Ltac reads :=
  cbv beta iota zeta delta
    [dispatched after_dispatch before_dispatch forallb decoding andb negb
     signed built app fst snd].

(** Replay the recorded answers in the decoder. *)
Ltac recall :=
  repeat match goal with
         | H : ?x = _ |- context [match ?x with _ => _ end] => rewrite H
         end.

(** Settle a membership hypothesis over an explicit trace. *)
Ltac members :=
  repeat match goal with
         | H : In _ [] |- _ => destruct H
         | H : In _ (_ :: _) |- _ => destruct H
         | H : False |- _ => destruct H
         | H : @eq Ev _ _ |- _ =>
             first [discriminate H | injection H; intros; subst; clear H]
         end.

Lemma invoke_shape (w : Client) (h : Header) (op : Op) :
  (dispatched (fst (invoke E w h op)) = []
   /\ forallb (fun ev => negb (decoding ev)) (fst (invoke E w h op)) = true
   /\ fst (snd (invoke E w h op)) = None
   /\ snd (snd (invoke E w h op)) <> None)
  \/
  (exists r,
      dispatched (fst (invoke E w h op)) = [r]
      /\ forallb (fun ev => negb (decoding ev))
           (before_dispatch (fst (invoke E w h op))) = true
      /\ after_dispatch (fst (invoke E w h op))
         = fst (decode E (target E op) (c w r))
      /\ snd (invoke E w h op) = snd (decode E (target E op) (c w r))
      /\ forall p payload,
           In (EvBuildSignatureBody p payload) (fst (invoke E w h op)) ->
           exists sig, sign_payload E p payload = inr sig
                       /\ Body r = EnvelopeBody {| req_Payload := payload;
                                                   req_Signature := Some sig |}).
Proof.
  destruct op; cases.
  all: first
    [ left; reads; repeat split; (reflexivity || discriminate)
    | right; eexists; split; [reads; reflexivity|]; reads;
      unfold decode; run; repeat (recall; run);
      split; [reflexivity|]; split; [reflexivity|]; split; [reflexivity|];
      intros ? ? ?; members;
      (eexists; split; [eassumption | reflexivity]) ].
Qed.

(** A failed signer or custody call ends the operation on the spot. *)
Lemma signing_stops (w : Client) (h : Header) (op : Op) :
  (forall p payload d,
      In (EvBuildSignatureBody p payload) (fst (invoke E w h op)) ->
      sign_payload E p payload = inl d ->
      snd (invoke E w h op) = (None, Some (SigningError d))
      /\ built (fst (invoke E w h op)) = []
      /\ dispatched (fst (invoke E w h op)) = [])
  /\
  (forall h' p q d,
      In (EvQueryPrivateKey h' p) (fst (invoke E w h op)) ->
      s w = Some q ->
      q h' p = inl d ->
      snd (invoke E w h op) = (None, Some (CustodyError d))
      /\ built (fst (invoke E w h op)) = []
      /\ dispatched (fst (invoke E w h op)) = []).
Proof.
  destruct op; cases.
  all: split; intros; members; reads; try congruence; repeat split; congruence.
Qed.

(** Once a request is dispatched, the rest of the run is the decoder
    applied to the transport's answer. *)
Lemma dispatch_decodes (w : Client) (h : Header) (op : Op) (r : Req) :
  In (EvDoRequest r) (fst (invoke E w h op)) ->
  forallb (fun ev => negb (decoding ev)) (before_dispatch (fst (invoke E w h op))) = true
  /\ after_dispatch (fst (invoke E w h op)) = fst (decode E (target E op) (c w r))
  /\ snd (invoke E w h op) = snd (decode E (target E op) (c w r)).
Proof.
  intros Hin. apply In_dispatched in Hin.
  destruct (invoke_shape w h op) as [[Hd _]|[r' [Hd [Hq [Ha [Hs _]]]]]].
  - rewrite Hd in Hin. destruct Hin.
  - rewrite Hd in Hin. destruct Hin as [<-|[]]. auto.
Qed.

(** A decoding event of a run with a quiet prelude lies after the
    dispatch. *)
Lemma decoding_after (t : Tr) (ev : Ev) :
  forallb (fun e => negb (decoding e)) (before_dispatch t) = true ->
  decoding ev = true ->
  In ev t -> In ev (after_dispatch t).
Proof.
  intros Hq Hd Hin.
  destruct (In_trace_split t ev Hin) as [Hb|[[r ->]|Ha]].
  - rewrite (quiet_In _ _ Hq Hb) in Hd. discriminate.
  - discriminate.
  - exact Ha.
Qed.

(** The caller's header entries reach the dispatched request as they
    are; only [UploadPOEFile] sets one of its own, [Content-Type]. *)
Lemma headers_pass_through (w : Client) (h : Header) (op : Op) (r : Req) :
  In r (dispatched (fst (invoke E w h op))) ->
  forall kv, In kv h -> fst kv <> "Content-Type" -> In kv (Headers r).
Proof.
  destruct op; cases.
  all: reads; first [intros [<-|[]] | intros []].
  all: cbv [Headers SetBody SetParam SetHeaders SetHeader]; intros kv Hkv Hne.
  all: try assumption.
  all: right; apply filter_In; split; [assumption|].
  all: apply negb_true_iff, String.eqb_neq; exact Hne.
Qed.

(** *** The operations, claim by claim *)

(** C1.  Every operation decodes the response it received in the five
    steps of the decoder, in order and stopping at the first step that
    fails: the events after the dispatch and the result pair satisfy
    [Decoded] for the transport's answer, and no decoding step runs
    before the dispatch. *)
Theorem decoding_in_five_steps (w : Client) (h : Header) (op : Op) (r : Req) :
  In (EvDoRequest r) (trace_of (invoke E w h op)) ->
  Decoded E (target E op) (c w r)
    (after_dispatch (trace_of (invoke E w h op)))
    (snd (invoke E w h op))
  /\ forallb (fun ev => negb (decoding ev))
       (before_dispatch (trace_of (invoke E w h op))) = true.
Proof.
  unfold trace_of. intros Hin.
  destruct (dispatch_decodes w h op r Hin) as [Hq [Ha Hs]].
  split; [|exact Hq].
  rewrite Ha, Hs. apply decode_Decoded.
Qed.

(** C2.  The byte sequence handed to [buildSignatureBody] is the
    [Payload] string of the envelope that is dispatched, and the envelope
    carries the signature made over it. *)
Theorem signed_bytes_are_sent (w : Client) (h : Header) (op : Op)
  (p : option SignatureParam) (payload : string) (r : Req) :
  In (EvBuildSignatureBody p payload) (trace_of (invoke E w h op)) ->
  In (EvDoRequest r) (trace_of (invoke E w h op)) ->
  transmitted r = Some payload
  /\ exists sig, sign_payload E p payload = inr sig
                 /\ Body r = EnvelopeBody {| req_Payload := payload;
                                             req_Signature := Some sig |}.
Proof.
  unfold trace_of. intros Hs Hd. apply In_dispatched in Hd.
  destruct (invoke_shape w h op) as [[H0 _]|[r' [H1 [_ [_ [_ Hp]]]]]].
  - rewrite H0 in Hd. destruct Hd.
  - rewrite H1 in Hd. destruct Hd as [<-|[]].
    destruct (Hp p payload Hs) as [sig [Hsig Hbody]].
    split; [unfold transmitted; rewrite Hbody; reflexivity|].
    exists sig. auto.
Qed.

(** C3.  An envelope whose error code is not the success code makes the
    operation return the coded error with that code and message; the
    payload is neither read nor parsed. *)
Theorem remote_error_verbatim (w : Client) (h : Header) (op : Op) (r : Req)
  (resp : HttpResponse) (env : Response) :
  In (EvDoRequest r) (trace_of (invoke E w h op)) ->
  c w r = inr resp ->
  StatusCode resp = StatusOK ->
  decode_envelope E (RespBody resp) = inr env ->
  ErrCode env <> SuccCode E ->
  result_of (invoke E w h op) = None
  /\ err_of (invoke E w h op) = Some (CodedError (ErrCode env) (ErrMessage env))
  /\ ~ In EvPayload (trace_of (invoke E w h op))
  /\ forall data, ~ In (EvUnmarshal data) (trace_of (invoke E w h op)).
Proof.
  unfold trace_of, result_of, err_of. intros Hin Hc Hs He Hcode.
  destruct (dispatch_decodes w h op r Hin) as [Hq [Ha Hr]].
  rewrite Hc, (decode_rejected _ resp env Hs He Hcode) in Ha, Hr.
  simpl in Ha, Hr. rewrite Hr. simpl.
  repeat split.
  - intros H. apply (decoding_after _ EvPayload Hq eq_refl) in H.
    rewrite Ha in H. simpl in H. intuition discriminate.
  - intros data H. apply (decoding_after _ (EvUnmarshal data) Hq eq_refl) in H.
    rewrite Ha in H. simpl in H. intuition discriminate.
Qed.

(** C4.  A success-coded envelope whose payload is present and is not a
    string makes the operation fail with the payload-type error that
    names the payload's dynamic type; no result is built. *)
Theorem payload_type_error (w : Client) (h : Header) (op : Op) (r : Req)
  (resp : HttpResponse) (env : Response) (ty : GoType) :
  In (EvDoRequest r) (trace_of (invoke E w h op)) ->
  c w r = inr resp ->
  StatusCode resp = StatusOK ->
  decode_envelope E (RespBody resp) = inr env ->
  ErrCode env = SuccCode E ->
  reflect_TypeOf (Payload env) = Some ty ->
  ty <> TString ->
  result_of (invoke E w h op) = None
  /\ err_of (invoke E w h op)
     = Some (Errorf ("response payload type invalid: " +++ GoType_String ty))
  /\ forall data, ~ In (EvUnmarshal data) (trace_of (invoke E w h op)).
Proof.
  unfold trace_of, result_of, err_of. intros Hin Hc Hs He Hcode Hty Hns.
  destruct (dispatch_decodes w h op r Hin) as [Hq [Ha Hr]].
  assert (Hp : reflect_TypeOf (Payload env) <> Some TString) by congruence.
  rewrite Hc, (decode_not_string _ resp env Hs He Hcode Hp) in Ha, Hr.
  simpl in Ha, Hr. rewrite Hr. unfold payload_type_invalid. rewrite Hty. simpl.
  repeat split.
  intros data H. apply (decoding_after _ (EvUnmarshal data) Hq eq_refl) in H.
  rewrite Ha in H. simpl in H. intuition discriminate.
Qed.

(** C8.  Two runs of an operation that both dispatch and receive the
    same raw response decode it alike, whatever headers each run was
    given: same decoding steps, same result, same error.  The headers
    themselves travel in the request as the caller set them. *)
Theorem mode_noninterference (w1 w2 : Client) (h1 h2 : Header) (op : Op)
  (r1 r2 : Req) :
  In (EvDoRequest r1) (trace_of (invoke E w1 h1 op)) ->
  In (EvDoRequest r2) (trace_of (invoke E w2 h2 op)) ->
  c w1 r1 = c w2 r2 ->
  result_of (invoke E w1 h1 op) = result_of (invoke E w2 h2 op)
  /\ err_of (invoke E w1 h1 op) = err_of (invoke E w2 h2 op)
  /\ after_dispatch (trace_of (invoke E w1 h1 op))
     = after_dispatch (trace_of (invoke E w2 h2 op))
  /\ (forall kv, In kv h1 -> fst kv <> "Content-Type" -> In kv (Headers r1))
  /\ (forall kv, In kv h2 -> fst kv <> "Content-Type" -> In kv (Headers r2)).
Proof.
  unfold trace_of, result_of, err_of. intros H1 H2 Hc.
  destruct (dispatch_decodes w1 h1 op r1 H1) as [_ [Ha1 Hr1]].
  destruct (dispatch_decodes w2 h2 op r2 H2) as [_ [Ha2 Hr2]].
  rewrite Ha1, Ha2, Hr1, Hr2, Hc.
  repeat split.
  - apply (headers_pass_through w1 h1 op r1). apply In_dispatched. exact H1.
  - apply (headers_pass_through w2 h2 op r2). apply In_dispatched. exact H2.
Qed.

(** C9.  A success-coded envelope without a payload makes the operation
    fail with the payload-type error, like any payload that is not a
    string; nothing is parsed and no result is returned. *)
Theorem absent_payload_is_type_error (w : Client) (h : Header) (op : Op)
  (r : Req) (resp : HttpResponse) (env : Response) :
  In (EvDoRequest r) (trace_of (invoke E w h op)) ->
  c w r = inr resp ->
  StatusCode resp = StatusOK ->
  decode_envelope E (RespBody resp) = inr env ->
  ErrCode env = SuccCode E ->
  Payload env = ANil ->
  result_of (invoke E w h op) = None
  /\ err_of (invoke E w h op)
     = Some (Errorf "response payload type invalid: <nil>")
  /\ forall data, ~ In (EvUnmarshal data) (trace_of (invoke E w h op)).
Proof.
  unfold trace_of, result_of, err_of. intros Hin Hc Hs He Hcode Hnil.
  destruct (dispatch_decodes w h op r Hin) as [Hq [Ha Hr]].
  assert (Hp : reflect_TypeOf (Payload env) <> Some TString)
    by (rewrite Hnil; discriminate).
  rewrite Hc, (decode_not_string _ resp env Hs He Hcode Hp) in Ha, Hr.
  simpl in Ha, Hr. rewrite Hr. unfold payload_type_invalid. rewrite Hnil. simpl.
  repeat split.
  intros data H. apply (decoding_after _ (EvUnmarshal data) Hq eq_refl) in H.
  rewrite Ha in H. simpl in H. intuition discriminate.
Qed.

(** C10.  When the key-custody lookup or the signature construction
    fails, the operation returns that error; no request object has been
    built and none is dispatched. *)
Theorem signing_failure_sends_nothing (w : Client) (h : Header) (op : Op)
  (e : error) :
  SigningFailure E w (trace_of (invoke E w h op)) e ->
  result_of (invoke E w h op) = None
  /\ err_of (invoke E w h op) = Some e
  /\ built (trace_of (invoke E w h op)) = []
  /\ dispatched (trace_of (invoke E w h op)) = [].
Proof.
  unfold trace_of, result_of, err_of.
  destruct (signing_stops w h op) as [Hsign Hkey].
  intros [h' p q d Hin Hs Hf | p payload d Hin Hf].
  - destruct (Hkey h' p q d Hin Hs Hf) as [Hr [Hb Hd]].
    rewrite Hr. auto.
  - destruct (Hsign p payload d Hin Hf) as [Hr [Hb Hd]].
    rewrite Hr. auto.
Qed.

(** *** The multipart body *)

Lemma append_assoc (a b c : string) : (a +++ b) +++ c = a +++ b +++ c.
Proof.
  induction a as [|ch a IH]; simpl; [reflexivity|].
  rewrite IH. reflexivity.
Qed.

Lemma append_nil_r (a : string) : a +++ EmptyString = a.
Proof.
  induction a as [|ch a IH]; simpl; [reflexivity|].
  rewrite IH. reflexivity.
Qed.

(** What the writer has produced once the three parts are written and
    the writer is closed is the finalized form with these parts. *)
Lemma upload_form (b id poeID ro flag pf poeFile content : string) :
  multipart.Bytes
    (multipart.Close
       (multipart.Write
          (multipart.file_started
             (multipart.field_written
                (multipart.field_written (multipart.NewWriter b) id poeID)
                ro flag)
             pf poeFile)
          content))
  = form b [Field id poeID; Field ro flag; FilePart pf poeFile content].
Proof.
  cbv beta iota zeta delta
    [multipart.Bytes multipart.Close multipart.Write multipart.CreateFormFile
     multipart.field_written multipart.file_started
     multipart.WriteField multipart.CreateFormField multipart.CreatePart
     multipart.NewWriter multipart.header_line multipart.buf
     multipart.boundary multipart.lastpart
     form form_rest terminator part_headers part_content
     fst snd map String.concat].
  repeat rewrite append_assoc.
  cbn [String.append].
  repeat rewrite append_assoc.
  reflexivity.
Qed.

Lemma form_terminated (b : string) (ps : list FormPart) :
  ends_with (form b ps) (terminator b).
Proof.
  assert (Hrest : forall l, ends_with (form_rest b l) (terminator b)).
  { induction l as [|p l [front IH]]; simpl.
    - exists EmptyString. reflexivity.
    - exists (multipart.CRLF +++ "--" +++ b +++ multipart.CRLF
              +++ part_headers p +++ multipart.CRLF +++ part_content p +++ front).
      rewrite IH. repeat rewrite append_assoc. reflexivity. }
  destruct ps as [|p ps]; simpl.
  - exists EmptyString. reflexivity.
  - destruct (Hrest ps) as [front IH].
    exists ("--" +++ b +++ multipart.CRLF
            +++ part_headers p +++ multipart.CRLF +++ part_content p +++ front).
    rewrite IH. repeat rewrite append_assoc. reflexivity.
Qed.

(** *** The query and upload operations *)

(** C5.  [QueryPOE] does not test its identifier: called with the empty
    identifier it builds the request, sets the empty [id] parameter and
    dispatches it. *)
Theorem QueryPOE_empty_id_is_dispatched (w : Client) (h : Header) :
  built (fst (QueryPOE E w h EmptyString)) = [("GET", "/v1/poe")]
  /\ exists r, dispatched (fst (QueryPOE E w h EmptyString)) = [r]
               /\ Params r = [("id", EmptyString)].
Proof.
  cases.
  all: reads; split; [reflexivity|]; eexists; split; reflexivity.
Qed.

(** [QueryTransactionLogs], next to it, does test its identifier. *)
Lemma QueryTransactionLogs_empty_id (w : Client) (h : Header) (txType : string) :
  QueryTransactionLogs E w h EmptyString txType
  = ([], (None, Some (Errorf "request id invalid"))).
Proof. reflexivity. Qed.

(** C6.  With both arguments set and a file that cannot be opened,
    [UploadPOEFile] returns the error of [os.Open]; no request is built
    and none is dispatched. *)
Theorem upload_missing_file (w : Client) (h : Header)
  (poeID poeFile : string) (readOnly : bool) (d : string) :
  poeID <> EmptyString ->
  poeFile <> EmptyString ->
  os_Open E poeFile = inl d ->
  result_of (invoke E w h (OpUploadPOEFile poeID poeFile readOnly)) = None
  /\ err_of (invoke E w h (OpUploadPOEFile poeID poeFile readOnly))
     = Some (IOError d)
  /\ built (trace_of (invoke E w h (OpUploadPOEFile poeID poeFile readOnly))) = []
  /\ dispatched (trace_of (invoke E w h (OpUploadPOEFile poeID poeFile readOnly))) = [].
Proof.
  intros Hid Hfile Hopen.
  apply String.eqb_neq in Hid. apply String.eqb_neq in Hfile.
  cases.
  all: try congruence.
  all: reads; repeat split; congruence.
Qed.

(** C7.  The body [UploadPOEFile] dispatches is the finalized form whose
    parts are, in this order, the POE id field, the read-only field as
    [true] or [false], and the file; the writer is closed before the
    dispatch and the body ends with the terminating boundary. *)
Theorem upload_body_is_finalized (w : Client) (h : Header)
  (poeID poeFile : string) (readOnly : bool) (r : Req) :
  In (EvDoRequest r)
    (trace_of (invoke E w h (OpUploadPOEFile poeID poeFile readOnly))) ->
  exists file content body,
    os_Open E poeFile = inr file
    /\ io_ReadAll E file = inr content
    /\ raw_body r = Some body
    /\ body = form (random_boundary E)
                [Field (OffchainPOEID E) poeID;
                 Field (OffchainReadOnly E) (FormatBool readOnly);
                 FilePart (OffchainPOEFile E) poeFile content]
    /\ ends_with body (terminator (random_boundary E))
    /\ In EvWriterClose
         (before_dispatch
            (trace_of (invoke E w h (OpUploadPOEFile poeID poeFile readOnly)))).
Proof.
  unfold trace_of. intros Hin. apply In_dispatched in Hin. revert Hin.
  cases.
  all: reads; first [intros [<-|[]] | intros []].
  all: do 3 eexists.
  all: split; [reflexivity|]; split; [eassumption|].
  all: split; [cbv [raw_body Body SetBody]; rewrite upload_form; reflexivity|].
  all: split; [reflexivity|]; split; [apply form_terminated|].
  all: simpl; auto.
Qed.

(** *** Further properties of the operations *)

(** X1.  A nil body is refused before anything else happens: no custody
    lookup, no serialization, no signature, no request. *)
Theorem nil_body_is_refused (w : Client) (h : Header) (op : Op) :
  payload_missing op = true ->
  invoke E w h op = ([], (None, Some (Errorf "request payload invalid"))).
Proof.
  destruct op as [b ?|b ?|b ?|b ?|b ?|b ?|b ?|b ?|? ?|b ?|b ?|?|? ? ?];
    try discriminate; destruct b; try discriminate; reflexivity.
Qed.

(** X2.  Every operation builds at most one request object and dispatches at
    most one request; a dispatched request is the one that was built. *)
Theorem at_most_one_request (w : Client) (h : Header) (op : Op) :
  (List.length (dispatched (trace_of (invoke E w h op))) <= 1)%nat
  /\ (List.length (built (trace_of (invoke E w h op))) <= 1)%nat
  /\ forall r, In r (dispatched (trace_of (invoke E w h op))) ->
               built (trace_of (invoke E w h op)) = [(Method r, Path r)].
Proof.
  destruct op; cases.
  all: reads; cbv [List.length]; split; [lia|]; split; [lia|].
  all: first [intros ? [<-|[]] | intros ? []].
  all: reflexivity.
Qed.

(** X3.  The request an operation dispatches goes to that operation's
    endpoint; a signing wrapper uses the endpoint of the operation it
    wraps. *)
Theorem dispatch_goes_to_endpoint (w : Client) (h : Header) (op : Op) (r : Req) :
  In (EvDoRequest r) (trace_of (invoke E w h op)) ->
  (Method r, Path r) = endpoint op.
Proof.
  unfold trace_of. intros Hin. apply In_dispatched in Hin. revert Hin.
  destruct op; cases.
  all: reads; first [intros [<-|[]] | intros []].
  all: reflexivity.
Qed.

(** X4.  If the body does not serialize, nothing is signed and nothing is
    dispatched; the error is the serialization error, unless the custody
    lookup, which comes first, has failed already. *)
Theorem unserializable_body_is_not_sent (w : Client) (h : Header) (op : Op)
  (d : string) :
  serialized E op = Some (inl d) ->
  result_of (invoke E w h op) = None
  /\ signed (trace_of (invoke E w h op)) = []
  /\ dispatched (trace_of (invoke E w h op)) = []
  /\ (err_of (invoke E w h op) = Some (MarshalError d)
      \/ (consults_custody op = true
          /\ exists d', err_of (invoke E w h op) = Some (CustodyError d'))).
Proof.
  destruct op as [b ?|b ?|b ?|b ?|b ?|b ?|b ?|b ?|? ?|b ?|b ?|?|? ? ?];
    try discriminate; destruct b as [b|]; try discriminate.
  all: cbv [serialized]; intros Hm; injection Hm as Hm.
  all: cases.
  all: try congruence.
  all: reads; repeat split; first [left; congruence | right; split; [reflexivity|eexists; reflexivity]].
Qed.

(** X5.  An operation that does not sign puts the caller's signature, nil
    included, beside the serialized body and dispatches that envelope
    under the caller's headers. *)
Theorem caller_signature_is_forwarded (w : Client) (h : Header) (op : Op)
  (payload : string) (sign : option SignatureBody) :
  serialized E op = Some (inr payload) ->
  caller_signature op = Some sign ->
  exists r,
    dispatched (trace_of (invoke E w h op)) = [r]
    /\ Body r = EnvelopeBody {| req_Payload := payload; req_Signature := sign |}
    /\ Headers r = h
    /\ Params r = [].
Proof.
  destruct op as [b ?|b ?|b ?|b ?|b ?|b ?|b ?|b ?|? ?|b ?|b ?|?|? ? ?];
    try discriminate; destruct b as [b|]; try discriminate.
  all: cbv [serialized caller_signature]; intros Hm Hs;
    injection Hm as Hm; injection Hs as Hs; subst.
  all: cases.
  all: try congruence.
  all: reads; eexists; split; [reflexivity|].
  all: cbv [Body Headers Params SetBody SetHeaders]; repeat split; congruence.
Qed.

(** X6.  A [...Sign] operation whose signature is made goes on exactly as the
    operation it wraps, called with that signature: the same events
    after the signer call, the same result and error. *)
Theorem sign_wrapper_composes (w : Client) (h : Header) (op op' : Op)
  (p : option SignatureParam) (payload : string) (sig : SignatureBody) :
  presigned op (Some sig) = Some op' ->
  caller_params op = Some p ->
  serialized E op = Some (inr payload) ->
  sign_payload E p payload = inr sig ->
  invoke E w h op
  = (EvBuildSignatureBody p payload :: fst (invoke E w h op'),
     snd (invoke E w h op')).
Proof.
  destruct op as [b ?|b ?|b ?|b ?|b ?|b ?|b ?|b ?|? ?|b ?|b ?|?|? ? ?];
    try discriminate; destruct b as [b|]; try discriminate.
  all: cbv [presigned caller_params serialized]; intros Hp Hc Hm Hs;
    injection Hp as Hp; injection Hc as Hc; injection Hm as Hm; subst.
  all: cbv beta iota zeta delta
         [invoke IssueCTokenSign IssueAssetSign TransferCTokenSign
          TransferAssetSign returns call bind ret throw emit lift
          json_Marshal buildSignatureBody app].
  all: rewrite Hm, Hs; cbv beta iota.
  all: match goal with
       | |- context [as_typed _ (?f _ ?w' ?h' ?body ?sgn)] =>
           destruct (f E w' h' body sgn) as [t [v e]]
       end; reflexivity.
Qed.

Lemma after_dispatch_incl (t : Tr) (ev : Ev) :
  In ev (after_dispatch t) -> In ev t.
Proof.
  induction t as [|e t IH]; simpl; [tauto|].
  destruct e; auto.
Qed.

Lemma decode_refused (U : string -> option Typed * option string)
  (reply : Reply) (d : string) :
  refusal E reply = Some d ->
  decode E U reply = ([EvRequireOK], (None, Some (TransportError d))).
Proof.
  unfold refusal, decode. destruct reply as [d'|resp].
  - intros H. injection H as ->. reflexivity.
  - destruct (StatusCode resp =? StatusOK)%Z; [discriminate|].
    intros H. injection H as <-. reflexivity.
Qed.

Lemma decode_string (U : string -> option Typed * option string)
  (resp : HttpResponse) (env : Response) (data : string) :
  StatusCode resp = StatusOK ->
  decode_envelope E (RespBody resp) = inr env ->
  ErrCode env = SuccCode E ->
  Payload env = AString data ->
  decode E U (inr resp) =
    ([EvRequireOK; EvDecodeBody; EvErrCode; EvPayload; EvUnmarshal data],
     (fst (U data), option_map DecodeError (snd (U data)))).
Proof.
  intros Hs He Hc Hp. unfold decode.
  apply Z.eqb_eq in Hs. apply Z.eqb_eq in Hc.
  rewrite Hs, He, Hc, Hp. simpl. destruct (U data); reflexivity.
Qed.

(** X7.  A success-coded envelope with a string payload is parsed into the
    operation's result type: the result is what [json.Unmarshal] left in
    it, the error is its error, and all five steps have run. *)
Theorem string_payload_is_parsed (w : Client) (h : Header) (op : Op) (r : Req)
  (resp : HttpResponse) (env : Response) (data : string) :
  In (EvDoRequest r) (trace_of (invoke E w h op)) ->
  c w r = inr resp ->
  StatusCode resp = StatusOK ->
  decode_envelope E (RespBody resp) = inr env ->
  ErrCode env = SuccCode E ->
  Payload env = AString data ->
  result_of (invoke E w h op) = fst (target E op data)
  /\ err_of (invoke E w h op) = option_map DecodeError (snd (target E op data))
  /\ after_dispatch (trace_of (invoke E w h op))
     = [EvRequireOK; EvDecodeBody; EvErrCode; EvPayload; EvUnmarshal data].
Proof.
  unfold trace_of, result_of, err_of. intros Hin Hc Hs He Hcode Hp.
  destruct (dispatch_decodes w h op r Hin) as [_ [Ha Hr]].
  rewrite Hc, (decode_string _ resp env data Hs He Hcode Hp) in Ha, Hr.
  simpl in Ha, Hr. rewrite Hr, Ha. auto.
Qed.

(** X8.  A typed result or a nil error is only ever returned for a response
    with the success status whose envelope decodes, carries the success
    code and has a string payload; the result is the parse of that
    payload. *)
Theorem result_needs_success_envelope (w : Client) (h : Header) (op : Op) :
  result_of (invoke E w h op) <> None \/ err_of (invoke E w h op) = None ->
  exists r resp env data,
    In (EvDoRequest r) (trace_of (invoke E w h op))
    /\ c w r = inr resp
    /\ StatusCode resp = StatusOK
    /\ decode_envelope E (RespBody resp) = inr env
    /\ ErrCode env = SuccCode E
    /\ Payload env = AString data
    /\ result_of (invoke E w h op) = fst (target E op data)
    /\ In (EvUnmarshal data) (trace_of (invoke E w h op)).
Proof.
  unfold trace_of, result_of, err_of. intros Hok.
  destruct (invoke_shape w h op) as [[_ [_ [Hn He]]]|[r [Hd [_ [Ha [Hs _]]]]]].
  { destruct Hok as [Hok|Hok]; [apply Hok in Hn; tauto | apply He in Hok; tauto]. }
  assert (Hin : In (EvDoRequest r) (fst (invoke E w h op))).
  { apply In_dispatched. rewrite Hd. left; reflexivity. }
  pose proof (decode_Decoded (target E op) (c w r)) as HD.
  rewrite <- Ha, <- Hs in HD.
  inversion HD as [d Hr Ht Ho|resp Hst Hr Ht Ho|resp d Hst Henv Hr Ht Ho
                  |resp env Hst Henv Hcode Hr Ht Ho
                  |resp env Hst Henv Hcode Hty Hr Ht Ho
                  |resp env data d Hst Henv Hcode Hp Hu Hr Ht Ho
                  |resp env data Hst Henv Hcode Hp Hu Hr Ht Ho];
    rewrite <- Ho in Hok; simpl in Hok;
    try (destruct Hok as [Hok|Hok]; [exfalso; apply Hok; reflexivity | discriminate]).
  - exists r, resp, env, data. repeat split; auto.
    apply after_dispatch_incl. rewrite <- Ht. simpl. auto 10.
  - exists r, resp, env, data. repeat split; auto.
    apply after_dispatch_incl. rewrite <- Ht. simpl. auto 10.
Qed.

(** X9.  A transport error, or a response whose status is not the success
    status, ends the operation with the transport error; the response
    body is never decoded, valid envelope or not. *)
Theorem refused_response_is_not_decoded (w : Client) (h : Header) (op : Op)
  (r : Req) (d : string) :
  In (EvDoRequest r) (trace_of (invoke E w h op)) ->
  refusal E (c w r) = Some d ->
  result_of (invoke E w h op) = None
  /\ err_of (invoke E w h op) = Some (TransportError d)
  /\ after_dispatch (trace_of (invoke E w h op)) = [EvRequireOK]
  /\ ~ In EvDecodeBody (trace_of (invoke E w h op)).
Proof.
  unfold trace_of, result_of, err_of. intros Hin Hre.
  destruct (dispatch_decodes w h op r Hin) as [Hq [Ha Hr]].
  rewrite (decode_refused _ _ d Hre) in Ha, Hr. simpl in Ha, Hr.
  rewrite Hr, Ha. repeat split.
  intros H. apply (decoding_after _ EvDecodeBody Hq eq_refl) in H.
  rewrite Ha in H. simpl in H. intuition discriminate.
Qed.

(** X10.  The key custody is consulted only by [CreatePOE] and [UpdatePOE],
    only when the client has one, and with the caller's header and
    signature parameters; the [...Sign] operations never consult it. *)
Theorem custody_only_for_poe (w : Client) (h : Header) (op : Op)
  (h' : Header) (p' : option SignatureParam) :
  In (EvQueryPrivateKey h' p') (trace_of (invoke E w h op)) ->
  consults_custody op = true
  /\ s w <> None
  /\ h' = h
  /\ caller_params op = Some p'.
Proof.
  unfold trace_of. destruct op; cases.
  all: intros Hin; members.
  all: repeat split; first [reflexivity | congruence].
Qed.

(** X11.  [CreatePOE] and [UpdatePOE] sign the serialized body with the
    resolved signature parameters and dispatch the envelope holding that
    body and that signature, under the caller's headers. *)
Theorem poe_request_is_signed (w : Client) (h : Header) (op : Op)
  (p p' : option SignatureParam) (payload : string) (sig : SignatureBody) :
  consults_custody op = true ->
  caller_params op = Some p ->
  serialized E op = Some (inr payload) ->
  resolve w h p = inr p' ->
  sign_payload E p' payload = inr sig ->
  exists r,
    dispatched (trace_of (invoke E w h op)) = [r]
    /\ Body r = EnvelopeBody {| req_Payload := payload;
                                req_Signature := Some sig |}
    /\ Headers r = h
    /\ In (EvBuildSignatureBody p' payload) (trace_of (invoke E w h op)).
Proof.
  destruct op as [b ?|b ?|b ?|b ?|b ?|b ?|b ?|b ?|? ?|b ?|b ?|?|? ? ?];
    try discriminate; destruct b as [b|]; try discriminate.
  all: cbv [caller_params serialized resolve]; intros _ Hc Hm Hr Hs;
    injection Hc as Hc; injection Hm as Hm; subst; revert Hr Hs.
  all: cases.
  all: intros; try congruence.
  all: repeat match goal with
              | H : inr _ = inr _ |- _ => injection H as H; subst
              | Ha : ?x = inr _, Hb : ?x = inr _ |- _ =>
                  rewrite Ha in Hb; injection Hb as Hb; subst
              end.
  all: reads; eexists; split; [reflexivity|].
  all: cbv [Body Headers SetBody SetHeaders].
  all: repeat split; simpl; auto 10.
Qed.

(** Case analysis that first replays the answers already known. *)
Ltac known :=
  match goal with
  | H : ?x = _ |- context [match ?x with _ => _ end] => rewrite H
  end.

Ltac cases_from_known :=
  run; repeat (first [known | step]; run; try discriminate).

(** X12.  [UploadPOEFile] refuses an empty POE id, and then an empty file
    path, before it touches the file system or builds anything; the id
    is tested first. *)
Theorem upload_arguments_are_required (w : Client) (h : Header)
  (poeID poeFile : string) (readOnly : bool) :
  poeID = EmptyString \/ poeFile = EmptyString ->
  invoke E w h (OpUploadPOEFile poeID poeFile readOnly)
  = ([], (None,
          Some (Errorf (if String.eqb poeID EmptyString
                        then "poe id must be set when uploading poe file"
                        else "poe file must be set when uploading poe file")))).
Proof.
  intros [->| ->].
  - reflexivity.
  - destruct poeID; reflexivity.
Qed.

(** X13.  With both arguments set and a file that opens and reads,
    [UploadPOEFile] opens the file, closes the writer, builds one request
    and dispatches it: the body is the finalized form and the
    [Content-Type] header names the boundary that delimits it. *)
Theorem upload_is_dispatched (w : Client) (h : Header)
  (poeID poeFile : string) (readOnly : bool) (file : File) (content : string) :
  poeID <> EmptyString ->
  poeFile <> EmptyString ->
  os_Open E poeFile = inr file ->
  io_ReadAll E file = inr content ->
  exists r,
    dispatched (trace_of (invoke E w h (OpUploadPOEFile poeID poeFile readOnly))) = [r]
    /\ before_dispatch (trace_of (invoke E w h (OpUploadPOEFile poeID poeFile readOnly)))
       = [EvOpen poeFile; EvWriterClose; EvNewRequest "POST" "/v1/poe/upload"]
    /\ raw_body r
       = Some (form (random_boundary E)
                 [Field (OffchainPOEID E) poeID;
                  Field (OffchainReadOnly E) (FormatBool readOnly);
                  FilePart (OffchainPOEFile E) poeFile content])
    /\ In ("Content-Type", ["multipart/form-data; boundary=" +++ random_boundary E])
         (Headers r).
Proof.
  intros Hid Hfile Hopen Hread.
  apply String.eqb_neq in Hid. apply String.eqb_neq in Hfile.
  cases_from_known.
  all: reads; eexists; split; [reflexivity|]; split; [reflexivity|].
  all: split; [cbv [raw_body Body SetBody]; rewrite upload_form; reflexivity|].
  all: left; reflexivity.
Qed.

(** X14.  When the file opens but cannot be read, [UploadPOEFile] returns the
    read error; the writer is not closed, no request is built and none is
    dispatched. *)
Theorem upload_unreadable_file (w : Client) (h : Header)
  (poeID poeFile : string) (readOnly : bool) (file : File) (d : string) :
  poeID <> EmptyString ->
  poeFile <> EmptyString ->
  os_Open E poeFile = inr file ->
  io_ReadAll E file = inl d ->
  invoke E w h (OpUploadPOEFile poeID poeFile readOnly)
  = ([EvOpen poeFile], (None, Some (IOError d))).
Proof.
  intros Hid Hfile Hopen Hread.
  apply String.eqb_neq in Hid. apply String.eqb_neq in Hfile.
  cases_from_known. reflexivity.
Qed.

(** X15.  With a non-empty identifier [QueryTransactionLogs] dispatches one
    request without a body, under the caller's headers, whose parameters
    are the identifier and then the transaction type. *)
Theorem query_logs_request (w : Client) (h : Header) (id txType : string) :
  id <> EmptyString ->
  exists r,
    dispatched (trace_of (invoke E w h (OpQueryTransactionLogs id txType))) = [r]
    /\ Params r = [("id", id); ("type", txType)]
    /\ Headers r = h
    /\ Body r = NoBody.
Proof.
  intros Hid. apply String.eqb_neq in Hid.
  cases.
  all: try congruence.
  all: reads; eexists; split; [reflexivity|].
  all: repeat split.
Qed.

Lemma decode_malformed (U : string -> option Typed * option string)
  (resp : HttpResponse) (d : string) :
  StatusCode resp = StatusOK ->
  decode_envelope E (RespBody resp) = inl d ->
  decode E U (inr resp)
  = ([EvRequireOK; EvDecodeBody], (None, Some (DecodeError d))).
Proof.
  intros Hs He. unfold decode. apply Z.eqb_eq in Hs.
  rewrite Hs, He. reflexivity.
Qed.

(** X16.  A response with the success status whose body is not an envelope
    ends the operation with the decoding error; neither the error code
    nor the payload is read. *)
Theorem malformed_envelope_is_decode_error (w : Client) (h : Header) (op : Op)
  (r : Req) (resp : HttpResponse) (d : string) :
  In (EvDoRequest r) (trace_of (invoke E w h op)) ->
  c w r = inr resp ->
  StatusCode resp = StatusOK ->
  decode_envelope E (RespBody resp) = inl d ->
  result_of (invoke E w h op) = None
  /\ err_of (invoke E w h op) = Some (DecodeError d)
  /\ ~ In EvErrCode (trace_of (invoke E w h op))
  /\ ~ In EvPayload (trace_of (invoke E w h op)).
Proof.
  unfold trace_of, result_of, err_of. intros Hin Hc Hs He.
  destruct (dispatch_decodes w h op r Hin) as [Hq [Ha Hr]].
  rewrite Hc, (decode_malformed _ resp d Hs He) in Ha, Hr.
  simpl in Ha, Hr. rewrite Hr. repeat split.
  - intros H. apply (decoding_after _ EvErrCode Hq eq_refl) in H.
    rewrite Ha in H. simpl in H. intuition discriminate.
  - intros H. apply (decoding_after _ EvPayload Hq eq_refl) in H.
    rewrite Ha in H. simpl in H. intuition discriminate.
Qed.

(** X17.  Whatever is handed to the signer is the serialization of the
    operation's body, and the key is the caller's in a [...Sign]
    operation and the resolved one in [CreatePOE] and [UpdatePOE]; the
    other operations never sign. *)
Theorem signer_gets_serialized_body (w : Client) (h : Header) (op : Op)
  (p : option SignatureParam) (payload : string) :
  In (EvBuildSignatureBody p payload) (trace_of (invoke E w h op)) ->
  serialized E op = Some (inr payload)
  /\ exists p0,
       caller_params op = Some p0
       /\ (if consults_custody op then resolve w h p0 = inr p else p0 = p).
Proof.
  unfold trace_of. destruct op; cases.
  all: intros Hin; members.
  all: cbv [serialized caller_params consults_custody resolve].
  all: split; [congruence|]; eexists; split; [reflexivity|].
  all: repeat match goal with
              | H : s _ = _ |- _ => rewrite H
              end; congruence.
Qed.

End Properties.

(** ** The properties at work in the concrete world *)

Lemma decoding_in_five_steps_witness :
  In (EvDoRequest (Sample.query_request Sample.sync))
     (trace_of (invoke Sample.world (Sample.client "good") Sample.sync Sample.query))
  /\ Decoded Sample.world (target Sample.world Sample.query)
       (c (Sample.client "good") (Sample.query_request Sample.sync))
       (after_dispatch
          (trace_of (invoke Sample.world (Sample.client "good") Sample.sync Sample.query)))
       (snd (invoke Sample.world (Sample.client "good") Sample.sync Sample.query))
  /\ forallb (fun ev => negb (decoding ev))
       (before_dispatch
          (trace_of (invoke Sample.world (Sample.client "good") Sample.sync Sample.query)))
     = true.
Proof.
  assert (H : In (EvDoRequest (Sample.query_request Sample.sync))
                (trace_of (invoke Sample.world (Sample.client "good")
                             Sample.sync Sample.query))).
  { vm_compute. right; left; reflexivity. }
  split; [exact H|].
  apply (decoding_in_five_steps Sample.world (Sample.client "good")
           Sample.sync Sample.query (Sample.query_request Sample.sync) H).
Defined.

Lemma signed_bytes_are_sent_witness :
  In (EvBuildSignatureBody (Some "key") "body")
     (trace_of (invoke Sample.world (Sample.client "good") Sample.sync Sample.issue))
  /\ In (EvDoRequest (Sample.issue_request Sample.sync))
       (trace_of (invoke Sample.world (Sample.client "good") Sample.sync Sample.issue))
  /\ transmitted (Sample.issue_request Sample.sync) = Some "body"
  /\ exists sig,
       sign_payload Sample.world (Some "key") "body" = inr sig
       /\ Body (Sample.issue_request Sample.sync)
          = EnvelopeBody {| req_Payload := "body"; req_Signature := Some sig |}.
Proof.
  assert (Hs : In (EvBuildSignatureBody (Some "key") "body")
                 (trace_of (invoke Sample.world (Sample.client "good")
                              Sample.sync Sample.issue))).
  { vm_compute. left; reflexivity. }
  assert (Hd : In (EvDoRequest (Sample.issue_request Sample.sync))
                 (trace_of (invoke Sample.world (Sample.client "good")
                              Sample.sync Sample.issue))).
  { vm_compute. right; right; left; reflexivity. }
  split; [exact Hs|]. split; [exact Hd|].
  apply (signed_bytes_are_sent Sample.world (Sample.client "good") Sample.sync
           Sample.issue (Some "key") "body" (Sample.issue_request Sample.sync) Hs Hd).
Defined.

Lemma remote_error_verbatim_witness :
  In (EvDoRequest (Sample.query_request Sample.sync))
     (trace_of (invoke Sample.world (Sample.client "rejected") Sample.sync Sample.query))
  /\ result_of (invoke Sample.world (Sample.client "rejected") Sample.sync Sample.query)
     = None
  /\ err_of (invoke Sample.world (Sample.client "rejected") Sample.sync Sample.query)
     = Some (CodedError 1001 "insufficient balance")
  /\ ~ In EvPayload
         (trace_of (invoke Sample.world (Sample.client "rejected") Sample.sync Sample.query))
  /\ forall data,
       ~ In (EvUnmarshal data)
           (trace_of (invoke Sample.world (Sample.client "rejected") Sample.sync Sample.query)).
Proof.
  assert (H : In (EvDoRequest (Sample.query_request Sample.sync))
                (trace_of (invoke Sample.world (Sample.client "rejected")
                             Sample.sync Sample.query))).
  { vm_compute. right; left; reflexivity. }
  split; [exact H|].
  apply (remote_error_verbatim Sample.world (Sample.client "rejected") Sample.sync
           Sample.query (Sample.query_request Sample.sync)
           (Sample.answer "rejected")
           {| ErrCode := 1001; ErrMessage := "insufficient balance";
              Payload := AString "ignored" |} H).
  - reflexivity.
  - reflexivity.
  - reflexivity.
  - vm_compute. discriminate.
Defined.

Lemma payload_type_error_witness :
  In (EvDoRequest (Sample.query_request Sample.sync))
     (trace_of (invoke Sample.world (Sample.client "number") Sample.sync Sample.query))
  /\ result_of (invoke Sample.world (Sample.client "number") Sample.sync Sample.query)
     = None
  /\ err_of (invoke Sample.world (Sample.client "number") Sample.sync Sample.query)
     = Some (Errorf "response payload type invalid: float64")
  /\ forall data,
       ~ In (EvUnmarshal data)
           (trace_of (invoke Sample.world (Sample.client "number") Sample.sync Sample.query)).
Proof.
  assert (H : In (EvDoRequest (Sample.query_request Sample.sync))
                (trace_of (invoke Sample.world (Sample.client "number")
                             Sample.sync Sample.query))).
  { vm_compute. right; left; reflexivity. }
  split; [exact H|].
  apply (payload_type_error Sample.world (Sample.client "number") Sample.sync
           Sample.query (Sample.query_request Sample.sync)
           (Sample.answer "number")
           {| ErrCode := 0; ErrMessage := EmptyString; Payload := AFloat64 0 |}
           TFloat64 H).
  - reflexivity.
  - reflexivity.
  - reflexivity.
  - reflexivity.
  - reflexivity.
  - discriminate.
Defined.

Lemma upload_missing_file_witness :
  os_Open Sample.world "missing.txt" = inl "open: no such file or directory"
  /\ result_of (invoke Sample.world (Sample.client "good") Sample.sync
                  (OpUploadPOEFile "poe-1" "missing.txt" false)) = None
  /\ err_of (invoke Sample.world (Sample.client "good") Sample.sync
               (OpUploadPOEFile "poe-1" "missing.txt" false))
     = Some (IOError "open: no such file or directory")
  /\ built (trace_of (invoke Sample.world (Sample.client "good") Sample.sync
                        (OpUploadPOEFile "poe-1" "missing.txt" false))) = []
  /\ dispatched (trace_of (invoke Sample.world (Sample.client "good") Sample.sync
                             (OpUploadPOEFile "poe-1" "missing.txt" false))) = [].
Proof.
  split; [reflexivity|].
  apply (upload_missing_file Sample.world (Sample.client "good") Sample.sync
           "poe-1" "missing.txt" false "open: no such file or directory").
  - discriminate.
  - discriminate.
  - reflexivity.
Defined.

Lemma upload_body_is_finalized_witness :
  In (EvDoRequest (Sample.upload_request Sample.sync))
     (trace_of (invoke Sample.world (Sample.client "good") Sample.sync Sample.upload))
  /\ exists file content body,
       os_Open Sample.world "poe.txt" = inr file
       /\ io_ReadAll Sample.world file = inr content
       /\ raw_body (Sample.upload_request Sample.sync) = Some body
       /\ body = form (random_boundary Sample.world)
                   [Field (OffchainPOEID Sample.world) "poe-1";
                    Field (OffchainReadOnly Sample.world) (FormatBool true);
                    FilePart (OffchainPOEFile Sample.world) "poe.txt" content]
       /\ ends_with body (terminator (random_boundary Sample.world))
       /\ In EvWriterClose
            (before_dispatch
               (trace_of (invoke Sample.world (Sample.client "good") Sample.sync
                            Sample.upload))).
Proof.
  assert (H : In (EvDoRequest (Sample.upload_request Sample.sync))
                (trace_of (invoke Sample.world (Sample.client "good")
                             Sample.sync Sample.upload))).
  { vm_compute. right; right; right; left; reflexivity. }
  split; [exact H|].
  apply (upload_body_is_finalized Sample.world (Sample.client "good") Sample.sync
           "poe-1" "poe.txt" true (Sample.upload_request Sample.sync) H).
Defined.

Lemma mode_noninterference_witness :
  In (EvDoRequest (Sample.issue_request Sample.sync))
     (trace_of (invoke Sample.world (Sample.client "good") Sample.sync Sample.issue))
  /\ In (EvDoRequest (Sample.issue_request []))
       (trace_of (invoke Sample.world (Sample.client "good") [] Sample.issue))
  /\ result_of (invoke Sample.world (Sample.client "good") Sample.sync Sample.issue)
     = result_of (invoke Sample.world (Sample.client "good") [] Sample.issue)
  /\ err_of (invoke Sample.world (Sample.client "good") Sample.sync Sample.issue)
     = err_of (invoke Sample.world (Sample.client "good") [] Sample.issue)
  /\ after_dispatch
       (trace_of (invoke Sample.world (Sample.client "good") Sample.sync Sample.issue))
     = after_dispatch
         (trace_of (invoke Sample.world (Sample.client "good") [] Sample.issue))
  /\ (forall kv, In kv Sample.sync -> fst kv <> "Content-Type" ->
                 In kv (Headers (Sample.issue_request Sample.sync)))
  /\ (forall kv, In kv [] -> fst kv <> "Content-Type" ->
                 In kv (Headers (Sample.issue_request []))).
Proof.
  assert (H1 : In (EvDoRequest (Sample.issue_request Sample.sync))
                 (trace_of (invoke Sample.world (Sample.client "good")
                              Sample.sync Sample.issue))).
  { vm_compute. right; right; left; reflexivity. }
  assert (H2 : In (EvDoRequest (Sample.issue_request []))
                 (trace_of (invoke Sample.world (Sample.client "good")
                              [] Sample.issue))).
  { vm_compute. right; right; left; reflexivity. }
  split; [exact H1|]. split; [exact H2|].
  apply (mode_noninterference Sample.world (Sample.client "good")
           (Sample.client "good") Sample.sync [] Sample.issue
           (Sample.issue_request Sample.sync) (Sample.issue_request []) H1 H2).
  reflexivity.
Defined.

Lemma absent_payload_is_type_error_witness :
  In (EvDoRequest (Sample.query_request Sample.sync))
     (trace_of (invoke Sample.world (Sample.client "null") Sample.sync Sample.query))
  /\ result_of (invoke Sample.world (Sample.client "null") Sample.sync Sample.query)
     = None
  /\ err_of (invoke Sample.world (Sample.client "null") Sample.sync Sample.query)
     = Some (Errorf "response payload type invalid: <nil>")
  /\ forall data,
       ~ In (EvUnmarshal data)
           (trace_of (invoke Sample.world (Sample.client "null") Sample.sync Sample.query)).
Proof.
  assert (H : In (EvDoRequest (Sample.query_request Sample.sync))
                (trace_of (invoke Sample.world (Sample.client "null")
                             Sample.sync Sample.query))).
  { vm_compute. right; left; reflexivity. }
  split; [exact H|].
  apply (absent_payload_is_type_error Sample.world (Sample.client "null")
           Sample.sync Sample.query (Sample.query_request Sample.sync)
           (Sample.answer "null")
           {| ErrCode := 0; ErrMessage := EmptyString; Payload := ANil |} H).
  - reflexivity.
  - reflexivity.
  - reflexivity.
  - reflexivity.
  - reflexivity.
Defined.

Lemma signing_failure_sends_nothing_witness :
  SigningFailure Sample.world (Sample.orphan "good")
    (trace_of (invoke Sample.world (Sample.orphan "good") Sample.sync
                 (OpCreatePOE (Some "body") (Some "key"))))
    (CustodyError "key not found")
  /\ result_of (invoke Sample.world (Sample.orphan "good") Sample.sync
                  (OpCreatePOE (Some "body") (Some "key"))) = None
  /\ err_of (invoke Sample.world (Sample.orphan "good") Sample.sync
               (OpCreatePOE (Some "body") (Some "key")))
     = Some (CustodyError "key not found")
  /\ built (trace_of (invoke Sample.world (Sample.orphan "good") Sample.sync
                        (OpCreatePOE (Some "body") (Some "key")))) = []
  /\ dispatched (trace_of (invoke Sample.world (Sample.orphan "good") Sample.sync
                             (OpCreatePOE (Some "body") (Some "key")))) = [].
Proof.
  assert (H : SigningFailure Sample.world (Sample.orphan "good")
                (trace_of (invoke Sample.world (Sample.orphan "good") Sample.sync
                             (OpCreatePOE (Some "body") (Some "key"))))
                (CustodyError "key not found")).
  { apply (custody_failed Sample.world (Sample.orphan "good") _
             Sample.sync (Some "key") (fun _ _ => inl "key not found")
             "key not found").
    - vm_compute. left; reflexivity.
    - reflexivity.
    - reflexivity. }
  split; [exact H|].
  apply (signing_failure_sends_nothing Sample.world (Sample.orphan "good")
           Sample.sync (OpCreatePOE (Some "body") (Some "key"))
           (CustodyError "key not found") H).
Defined.

(** ** The further properties at work in the concrete world *)

Lemma nil_body_is_refused_witness :
  payload_missing (@OpCreatePOE string string string string string string string
                     None (Some "key")) = true
  /\ invoke Sample.world (Sample.orphan "good") Sample.sync
       (OpCreatePOE None (Some "key"))
     = ([], (None, Some (Errorf "request payload invalid"))).
Proof.
  split; [reflexivity|].
  apply (nil_body_is_refused Sample.world (Sample.orphan "good") Sample.sync
           (OpCreatePOE None (Some "key"))).
  reflexivity.
Defined.

Lemma dispatch_goes_to_endpoint_witness :
  In (EvDoRequest (Sample.upload_request Sample.sync))
     (trace_of (invoke Sample.world (Sample.client "good") Sample.sync Sample.upload))
  /\ (Method (Sample.upload_request Sample.sync),
      Path (Sample.upload_request Sample.sync)) = endpoint Sample.upload.
Proof.
  assert (H : In (EvDoRequest (Sample.upload_request Sample.sync))
                (trace_of (invoke Sample.world (Sample.client "good")
                             Sample.sync Sample.upload))).
  { vm_compute. right; right; right; left; reflexivity. }
  split; [exact H|].
  apply (dispatch_goes_to_endpoint Sample.world (Sample.client "good")
           Sample.sync Sample.upload (Sample.upload_request Sample.sync) H).
Defined.

Lemma unserializable_body_is_not_sent_witness :
  serialized Sample.faulty Sample.issue = Some (inl "json: unsupported value")
  /\ result_of (invoke Sample.faulty (Sample.client "good") Sample.sync Sample.issue)
     = None
  /\ signed (trace_of (invoke Sample.faulty (Sample.client "good") Sample.sync
                         Sample.issue)) = []
  /\ dispatched (trace_of (invoke Sample.faulty (Sample.client "good") Sample.sync
                             Sample.issue)) = []
  /\ (err_of (invoke Sample.faulty (Sample.client "good") Sample.sync Sample.issue)
      = Some (MarshalError "json: unsupported value")
      \/ (consults_custody Sample.issue = true
          /\ exists d',
               err_of (invoke Sample.faulty (Sample.client "good") Sample.sync
                         Sample.issue) = Some (CustodyError d'))).
Proof.
  split; [reflexivity|].
  apply (unserializable_body_is_not_sent Sample.faulty (Sample.client "good")
           Sample.sync Sample.issue "json: unsupported value").
  reflexivity.
Defined.

Lemma caller_signature_is_forwarded_witness :
  serialized Sample.world (OpTransferAsset (Some "body") None) = Some (inr "body")
  /\ caller_signature
       (@OpTransferAsset string string string string string string string
          (Some "body") None) = Some None
  /\ exists r,
       dispatched (trace_of (invoke Sample.world (Sample.client "good") Sample.sync
                               (OpTransferAsset (Some "body") None))) = [r]
       /\ Body r = EnvelopeBody {| req_Payload := "body"; req_Signature := None |}
       /\ Headers r = Sample.sync
       /\ Params r = [].
Proof.
  split; [reflexivity|]. split; [reflexivity|].
  apply (caller_signature_is_forwarded Sample.world (Sample.client "good")
           Sample.sync (OpTransferAsset (Some "body") None) "body" None).
  - reflexivity.
  - reflexivity.
Defined.

Lemma sign_wrapper_composes_witness :
  presigned Sample.issue (Some "key:body")
  = Some (OpIssueCToken (Some "body") (Some "key:body"))
  /\ caller_params Sample.issue = Some (Some "key")
  /\ serialized Sample.world Sample.issue = Some (inr "body")
  /\ sign_payload Sample.world (Some "key") "body" = inr "key:body"
  /\ invoke Sample.world (Sample.client "rejected") Sample.sync Sample.issue
     = (EvBuildSignatureBody (Some "key") "body"
          :: fst (invoke Sample.world (Sample.client "rejected") Sample.sync
                    (OpIssueCToken (Some "body") (Some "key:body"))),
        snd (invoke Sample.world (Sample.client "rejected") Sample.sync
               (OpIssueCToken (Some "body") (Some "key:body")))).
Proof.
  split; [reflexivity|]. split; [reflexivity|].
  split; [reflexivity|]. split; [reflexivity|].
  apply (sign_wrapper_composes Sample.world (Sample.client "rejected") Sample.sync
           Sample.issue (OpIssueCToken (Some "body") (Some "key:body"))
           (Some "key") "body" "key:body").
  - reflexivity.
  - reflexivity.
  - reflexivity.
  - reflexivity.
Defined.

Lemma string_payload_is_parsed_witness :
  In (EvDoRequest (Sample.query_request Sample.sync))
     (trace_of (invoke Sample.world (Sample.client "good") Sample.sync Sample.query))
  /\ result_of (invoke Sample.world (Sample.client "good") Sample.sync Sample.query)
     = fst (target Sample.world Sample.query "result")
  /\ err_of (invoke Sample.world (Sample.client "good") Sample.sync Sample.query)
     = option_map DecodeError (snd (target Sample.world Sample.query "result"))
  /\ after_dispatch
       (trace_of (invoke Sample.world (Sample.client "good") Sample.sync Sample.query))
     = [EvRequireOK; EvDecodeBody; EvErrCode; EvPayload; EvUnmarshal "result"].
Proof.
  assert (H : In (EvDoRequest (Sample.query_request Sample.sync))
                (trace_of (invoke Sample.world (Sample.client "good")
                             Sample.sync Sample.query))).
  { vm_compute. right; left; reflexivity. }
  split; [exact H|].
  apply (string_payload_is_parsed Sample.world (Sample.client "good") Sample.sync
           Sample.query (Sample.query_request Sample.sync) (Sample.answer "good")
           {| ErrCode := 0; ErrMessage := EmptyString; Payload := AString "result" |}
           "result" H).
  - reflexivity.
  - reflexivity.
  - reflexivity.
  - reflexivity.
  - reflexivity.
Defined.

Lemma result_needs_success_envelope_witness :
  err_of (invoke Sample.world (Sample.client "good") Sample.sync Sample.query) = None
  /\ exists r resp env data,
       In (EvDoRequest r)
          (trace_of (invoke Sample.world (Sample.client "good") Sample.sync Sample.query))
       /\ c (Sample.client "good") r = inr resp
       /\ StatusCode resp = StatusOK
       /\ decode_envelope Sample.world (RespBody resp) = inr env
       /\ ErrCode env = SuccCode Sample.world
       /\ Payload env = AString data
       /\ result_of (invoke Sample.world (Sample.client "good") Sample.sync Sample.query)
          = fst (target Sample.world Sample.query data)
       /\ In (EvUnmarshal data)
            (trace_of (invoke Sample.world (Sample.client "good") Sample.sync
                         Sample.query)).
Proof.
  split; [reflexivity|].
  apply (result_needs_success_envelope Sample.world (Sample.client "good")
           Sample.sync Sample.query).
  right. reflexivity.
Defined.

Lemma refused_response_is_not_decoded_witness :
  In (EvDoRequest (Sample.query_request Sample.sync))
     (trace_of (invoke Sample.world Sample.down Sample.sync Sample.query))
  /\ refusal Sample.world (c Sample.down (Sample.query_request Sample.sync))
     = Some "Unexpected response code"
  /\ result_of (invoke Sample.world Sample.down Sample.sync Sample.query) = None
  /\ err_of (invoke Sample.world Sample.down Sample.sync Sample.query)
     = Some (TransportError "Unexpected response code")
  /\ after_dispatch (trace_of (invoke Sample.world Sample.down Sample.sync Sample.query))
     = [EvRequireOK]
  /\ ~ In EvDecodeBody
         (trace_of (invoke Sample.world Sample.down Sample.sync Sample.query)).
Proof.
  assert (H : In (EvDoRequest (Sample.query_request Sample.sync))
                (trace_of (invoke Sample.world Sample.down Sample.sync Sample.query))).
  { vm_compute. right; left; reflexivity. }
  split; [exact H|]. split; [reflexivity|].
  apply (refused_response_is_not_decoded Sample.world Sample.down Sample.sync
           Sample.query (Sample.query_request Sample.sync)
           "Unexpected response code" H).
  reflexivity.
Defined.

Lemma custody_only_for_poe_witness :
  In (EvQueryPrivateKey Sample.sync (Some "key"))
     (trace_of (invoke Sample.world (Sample.custodian "good") Sample.sync
                  (OpCreatePOE (Some "body") (Some "key"))))
  /\ consults_custody
       (@OpCreatePOE string string string string string string string
          (Some "body") (Some "key")) = true
  /\ s (Sample.custodian "good") <> None
  /\ Sample.sync = Sample.sync
  /\ caller_params
       (@OpCreatePOE string string string string string string string
          (Some "body") (Some "key")) = Some (Some "key").
Proof.
  assert (H : In (EvQueryPrivateKey Sample.sync (Some "key"))
                (trace_of (invoke Sample.world (Sample.custodian "good") Sample.sync
                             (OpCreatePOE (Some "body") (Some "key"))))).
  { vm_compute. left; reflexivity. }
  split; [exact H|].
  apply (custody_only_for_poe Sample.world (Sample.custodian "good") Sample.sync
           (OpCreatePOE (Some "body") (Some "key")) Sample.sync (Some "key") H).
Defined.

Lemma poe_request_is_signed_witness :
  resolve (Sample.custodian "good") Sample.sync (Some "key") = inr (Some "vault")
  /\ sign_payload Sample.world (Some "vault") "body" = inr "vault:body"
  /\ exists r,
       dispatched (trace_of (invoke Sample.world (Sample.custodian "good") Sample.sync
                               (OpCreatePOE (Some "body") (Some "key")))) = [r]
       /\ Body r = EnvelopeBody {| req_Payload := "body";
                                   req_Signature := Some "vault:body" |}
       /\ Headers r = Sample.sync
       /\ In (EvBuildSignatureBody (Some "vault") "body")
            (trace_of (invoke Sample.world (Sample.custodian "good") Sample.sync
                         (OpCreatePOE (Some "body") (Some "key")))).
Proof.
  split; [reflexivity|]. split; [reflexivity|].
  apply (poe_request_is_signed Sample.world (Sample.custodian "good") Sample.sync
           (OpCreatePOE (Some "body") (Some "key")) (Some "key") (Some "vault")
           "body" "vault:body").
  - reflexivity.
  - reflexivity.
  - reflexivity.
  - reflexivity.
  - reflexivity.
Defined.

Lemma upload_arguments_are_required_witness :
  invoke Sample.world (Sample.client "good") Sample.sync
    (OpUploadPOEFile "poe-1" EmptyString true)
  = ([], (None, Some (Errorf "poe file must be set when uploading poe file"))).
Proof.
  apply (upload_arguments_are_required Sample.world (Sample.client "good")
           Sample.sync "poe-1" EmptyString true).
  right. reflexivity.
Defined.

Lemma upload_is_dispatched_witness :
  os_Open Sample.world "poe.txt" = inr "file contents"
  /\ io_ReadAll Sample.world "file contents" = inr "file contents"
  /\ exists r,
       dispatched (trace_of (invoke Sample.world (Sample.client "good") Sample.sync
                               Sample.upload)) = [r]
       /\ before_dispatch (trace_of (invoke Sample.world (Sample.client "good")
                                       Sample.sync Sample.upload))
          = [EvOpen "poe.txt"; EvWriterClose; EvNewRequest "POST" "/v1/poe/upload"]
       /\ raw_body r
          = Some (form (random_boundary Sample.world)
                    [Field (OffchainPOEID Sample.world) "poe-1";
                     Field (OffchainReadOnly Sample.world) (FormatBool true);
                     FilePart (OffchainPOEFile Sample.world) "poe.txt" "file contents"])
       /\ In ("Content-Type",
              ["multipart/form-data; boundary=" +++ random_boundary Sample.world])
            (Headers r).
Proof.
  split; [reflexivity|]. split; [reflexivity|].
  apply (upload_is_dispatched Sample.world (Sample.client "good") Sample.sync
           "poe-1" "poe.txt" true "file contents" "file contents").
  - discriminate.
  - discriminate.
  - reflexivity.
  - reflexivity.
Defined.

Lemma upload_unreadable_file_witness :
  os_Open Sample.faulty "poe.txt" = inr "file contents"
  /\ io_ReadAll Sample.faulty "file contents" = inl "read: input/output error"
  /\ invoke Sample.faulty (Sample.client "good") Sample.sync Sample.upload
     = ([EvOpen "poe.txt"], (None, Some (IOError "read: input/output error"))).
Proof.
  split; [reflexivity|]. split; [reflexivity|].
  apply (upload_unreadable_file Sample.faulty (Sample.client "good") Sample.sync
           "poe-1" "poe.txt" true "file contents" "read: input/output error").
  - discriminate.
  - discriminate.
  - reflexivity.
  - reflexivity.
Defined.

Lemma query_logs_request_witness :
  exists r,
    dispatched (trace_of (invoke Sample.world (Sample.client "good") Sample.sync
                            (OpQueryTransactionLogs "wallet-1" "in"))) = [r]
    /\ Params r = [("id", "wallet-1"); ("type", "in")]
    /\ Headers r = Sample.sync
    /\ Body r = NoBody.
Proof.
  apply (query_logs_request Sample.world (Sample.client "good") Sample.sync
           "wallet-1" "in").
  discriminate.
Defined.

Lemma malformed_envelope_is_decode_error_witness :
  In (EvDoRequest (Sample.query_request Sample.sync))
     (trace_of (invoke Sample.world (Sample.client "<html>") Sample.sync Sample.query))
  /\ result_of (invoke Sample.world (Sample.client "<html>") Sample.sync Sample.query)
     = None
  /\ err_of (invoke Sample.world (Sample.client "<html>") Sample.sync Sample.query)
     = Some (DecodeError "unexpected end of JSON input")
  /\ ~ In EvErrCode
         (trace_of (invoke Sample.world (Sample.client "<html>") Sample.sync Sample.query))
  /\ ~ In EvPayload
         (trace_of (invoke Sample.world (Sample.client "<html>") Sample.sync Sample.query)).
Proof.
  assert (H : In (EvDoRequest (Sample.query_request Sample.sync))
                (trace_of (invoke Sample.world (Sample.client "<html>")
                             Sample.sync Sample.query))).
  { vm_compute. right; left; reflexivity. }
  split; [exact H|].
  apply (malformed_envelope_is_decode_error Sample.world (Sample.client "<html>")
           Sample.sync Sample.query (Sample.query_request Sample.sync)
           (Sample.answer "<html>") "unexpected end of JSON input" H).
  - reflexivity.
  - reflexivity.
  - reflexivity.
Defined.

Lemma signer_gets_serialized_body_witness :
  In (EvBuildSignatureBody (Some "vault") "body")
     (trace_of (invoke Sample.world (Sample.custodian "good") Sample.sync
                  (OpUpdatePOE (Some "body") (Some "key"))))
  /\ serialized Sample.world (OpUpdatePOE (Some "body") (Some "key"))
     = Some (inr "body")
  /\ exists p0,
       caller_params
         (@OpUpdatePOE string string string string string string string
            (Some "body") (Some "key")) = Some p0
       /\ (if consults_custody
                (@OpUpdatePOE string string string string string string string
                   (Some "body") (Some "key"))
           then resolve (Sample.custodian "good") Sample.sync p0 = inr (Some "vault")
           else p0 = Some "vault").
Proof.
  assert (H : In (EvBuildSignatureBody (Some "vault") "body")
                (trace_of (invoke Sample.world (Sample.custodian "good") Sample.sync
                             (OpUpdatePOE (Some "body") (Some "key"))))).
  { vm_compute. right; left; reflexivity. }
  split; [exact H|].
  apply (signer_gets_serialized_body Sample.world (Sample.custodian "good")
           Sample.sync (OpUpdatePOE (Some "body") (Some "key")) (Some "vault")
           "body" H).
Defined.
